(** * A Rocq model of the mediator bot (src/bot.py)

    The development embeds the two pieces of logic of the bot, the bounded
    history buffers and the generation client, as executable Rocq functions
    and proves the properties the specification states about them.

    - [Py] is the small part of the Python runtime the program relies on:
      dynamically typed values, exceptions, subscripting, truth values,
      slicing, [str.join] and the [in] operator.
    - [Bot] is the program itself, one definition per function of
      src/bot.py, written in a state-and-exception monad over the
      per-user and per-chat stores of the host platform.
    - The remaining sections hold the lemmas and the theorems. *)

From Stdlib Require Import ZArith String Ascii DecimalString PrimFloat.
From stdpp Require Import base option list gmap strings.

#[local] Set Warnings "-inexact-float,-register-all".

(** ** The Python runtime *)

Module Py.

(** Instances of [Exception] that the program can meet.  [HTTPError] stands
    for everything httpx raises while sending (connection failures and
    timeouts alike), [TelegramError] for what the messaging SDK raises. *)
Inductive exn : Type :=
  | KeyError
  | IndexError
  | TypeError
  | AttributeError
  | JSONDecodeError
  | HTTPError
  | TelegramError
  | OtherError (name : string).

(** The outcome of evaluating an expression: a value or a raised exception. *)
Inductive result (A : Type) : Type :=
  | Ok (a : A)
  | Raise (e : exn).
Arguments Ok {A} a.
Arguments Raise {A} e.

(** Python objects as the program sees them.  A [str] is kept as the bytes of
    its UTF-8 encoding; a [dict] with string keys is kept in insertion
    order. *)
Inductive value : Type :=
  | VNone
  | VBool (b : bool)
  | VInt (n : Z)
  | VFloat (x : float)
  | VStr (s : string)
  | VList (xs : list value)
  | VDict (kvs : list (string * value)).

(** [str(n)] for an [int]. *)
Definition str_int (n : Z) : string := NilZero.string_of_int (Z.to_int n).

(** [bool(v)]: the truth value of an object. *)
Definition truthy (v : value) : bool :=
  match v with
  | VNone => false
  | VBool b => b
  | VInt n => negb (n =? 0)%Z
  | VFloat x => negb (PrimFloat.eqb x 0%float)
  | VStr s => negb (String.eqb s "")
  | VList xs => match xs with [] => false | _ => true end
  | VDict kvs => match kvs with [] => false | _ => true end
  end.

(** [d.get(k)] on a dict kept as a list of items. *)
Fixpoint dict_get {A : Type} (k : string) (kvs : list (string * A)) : option A :=
  match kvs with
  | [] => None
  | (k', v) :: kvs' => if String.eqb k k' then Some v else dict_get k kvs'
  end.

(** [sub in s] on strings. *)
Fixpoint str_in (sub s : string) : bool :=
  String.prefix sub s
  || match s with
     | EmptyString => false
     | String _ s' => str_in sub s'
     end.

(** The characters of a [str]: the UTF-8 sequence is cut before every byte
    that is not a continuation byte. *)
Definition is_continuation (a : ascii) : bool :=
  let n := nat_of_ascii a in (128 <=? n)%nat && (n <? 192)%nat.

Fixpoint code_points_aux (s : string) : string * list string :=
  match s with
  | EmptyString => (EmptyString, [])
  | String a s' =>
      let '(pending, done) := code_points_aux s' in
      if is_continuation a then (String a pending, done)
      else (EmptyString, String a pending :: done)
  end.

Definition code_points (s : string) : list string :=
  let '(pending, done) := code_points_aux s in
  match pending with
  | EmptyString => done
  | _ => pending :: done
  end.

(** [xs[i]] on a sequence: negative indices count from the end, an index
    out of range raises [IndexError]. *)
Definition seq_index {A : Type} (xs : list A) (i : Z) : result A :=
  let len := Z.of_nat (length xs) in
  let j := if (i <? 0)%Z then (len + i)%Z else i in
  if (j <? 0)%Z then Raise IndexError
  else match xs !! Z.to_nat j with
       | Some x => Ok x
       | None => Raise IndexError
       end.

(** [v[k]] with a string key [k]. *)
Definition getitem_key (v : value) (k : string) : result value :=
  match v with
  | VDict kvs =>
      match dict_get k kvs with
      | Some x => Ok x
      | None => Raise KeyError
      end
  | _ => Raise TypeError
  end.

(** [v[i]] with an integer [i].  The dicts of this program have string keys
    only, so an integer key is never found. *)
Definition getitem_index (v : value) (i : Z) : result value :=
  match v with
  | VList xs => seq_index xs i
  | VStr s =>
      match seq_index (code_points s) i with
      | Ok c => Ok (VStr c)
      | Raise e => Raise e
      end
  | VDict _ => Raise KeyError
  | _ => Raise TypeError
  end.

(** [k in v] with a string [k]: key membership on a dict, element
    membership on a list, substring on a str, [TypeError] elsewhere. *)
Definition contains_str (k : string) (v : value) : result bool :=
  match v with
  | VDict kvs =>
      Ok (match dict_get k kvs with Some _ => true | None => false end)
  | VList xs =>
      Ok (existsb (fun x => match x with VStr s => String.eqb s k | _ => false end) xs)
  | VStr s => Ok (str_in k s)
  | _ => Raise TypeError
  end.

(** [xs[start:]]. *)
Definition slice_from {A : Type} (start : Z) (xs : list A) : list A :=
  let len := Z.of_nat (length xs) in
  let i := if (start <? 0)%Z then Z.max (len + start) 0 else Z.min start len in
  drop (Z.to_nat i) xs.

(** [sep.join(xs)]. *)
Definition join (sep : string) (xs : list string) : string := String.concat sep xs.

(** An optional string as an object: [None] or the [str]. *)
Definition of_optional (o : option string) : value :=
  match o with
  | Some s => VStr s
  | None => VNone
  end.

(** [o.attr] where [o] may be [None]. *)
Definition attr {A : Type} (o : option A) : result A :=
  match o with
  | Some a => Ok a
  | None => Raise AttributeError
  end.

End Py.

(** ** The program *)

Module Bot.
Import Py.

(** *** The objects of the messaging SDK and of the HTTP client *)

Module User.
Record t : Type := mk { first_name : string }.
End User.

Module Chat.
Record t : Type := mk { id : Z }.
End Chat.

Module Message.
Record t : Type := mk {
  text : option string;
  from_user : option User.t;
  message_id : Z }.
End Message.

Module Update.
Record t : Type := mk {
  message : option Message.t;
  effective_message : option Message.t;
  effective_chat : option Chat.t }.
End Update.

Module Request.
Record t : Type := mk {
  url : string;
  headers : list (string * string);
  json : value;
  timeout : float }.
End Request.

(** [json] is the outcome of calling [response.json()]. *)
Module Response.
Record t : Type := mk {
  status_code : Z;
  text : string;
  json : result value }.
End Response.

(** One entry of the private conversation history, the dict
    [{"role": ..., "content": ...}]. *)
Record turn : Type := mk_turn { role : string; content : value }.

(** *** What the program sends out, and what comes back *)

Inductive markup : Type := ReplyKeyboardRemove.

Inductive effect : Type :=
  | Post (request : Request.t)
  | SendChatAction (chat_id : Z) (action : string)
  | ReplyText (text : value) (reply_markup : option markup)
              (reply_to_message_id : option Z).

(** The outside world answers every call; the answer may depend on all that
    was sent before, so that two calls never have to agree. *)
Record world : Type := mk_world {
  http_answer : list effect -> Request.t -> result Response.t;
  telegram_answer : list effect -> effect -> result unit }.

(** The state a handler runs in: [context.user_data], [context.chat_data]
    and the calls made so far. *)
Record store : Type := mk_store {
  user_data : gmap string (list turn);
  chat_data : gmap string (list string);
  sent : list effect }.

(** *** Handlers as state transformers that may raise *)

Definition M (A : Type) : Type := store -> store * result A.

Definition ret {A : Type} (a : A) : M A := fun s => (s, Ok a).

Definition bind {A B : Type} (m : M A) (k : A -> M B) : M B :=
  fun s =>
    match m s with
    | (s', Ok a) => k a s'
    | (s', Raise e) => (s', Raise e)
    end.

Definition lift {A : Type} (r : result A) : M A := fun s => (s, r).

(** [try: body except Exception as e: handler e]. *)
Definition try_except {A : Type} (body : M A) (handler : exn -> M A) : M A :=
  fun s =>
    match body s with
    | (s', Ok a) => (s', Ok a)
    | (s', Raise e) => handler e s'
    end.

Notation "x <- m ;; k" := (bind m (fun x => k))
  (at level 100, m at next level, right associativity, only parsing).

(** [context.user_data.get(k, [])] and [context.user_data[k] = v]. *)
Definition user_data_get (k : string) (dflt : list turn) : M (list turn) :=
  fun s => (s, Ok (default dflt (user_data s !! k))).

Definition user_data_set (k : string) (v : list turn) : M unit :=
  fun s => (mk_store (<[k := v]> (user_data s)) (chat_data s) (sent s), Ok tt).

(** [if k in context.user_data: del context.user_data[k]]. *)
Definition user_data_discard (k : string) : M unit :=
  fun s =>
    match user_data s !! k with
    | Some _ => (mk_store (delete k (user_data s)) (chat_data s) (sent s), Ok tt)
    | None => (s, Ok tt)
    end.

(** [context.chat_data.get(k, [])], [context.chat_data.setdefault(k, [])]
    and [context.chat_data[k] = v]. *)
Definition chat_data_get (k : string) (dflt : list string) : M (list string) :=
  fun s => (s, Ok (default dflt (chat_data s !! k))).

Definition chat_data_setdefault (k : string) (dflt : list string) : M (list string) :=
  fun s =>
    match chat_data s !! k with
    | Some v => (s, Ok v)
    | None => (mk_store (user_data s) (<[k := dflt]> (chat_data s)) (sent s), Ok dflt)
    end.

Definition chat_data_set (k : string) (v : list string) : M unit :=
  fun s => (mk_store (user_data s) (<[k := v]> (chat_data s)) (sent s), Ok tt).

(** The newline character, written [\n] in the source. *)
Definition nl : string := String (ascii_of_nat 10) EmptyString.

Section Program.

(** The process environment, [str.lower] and the outside world. *)
Variable environ : gmap string string.
Variable lower : string -> string.
Variable w : world.

(** [await client.post(url, headers=..., json=..., timeout=...)]. *)
Definition client_post (request : Request.t) : M Response.t :=
  fun s =>
    (mk_store (user_data s) (chat_data s) (sent s ++ [Post request]),
     http_answer w (sent s) request).

(** A call of the messaging SDK. *)
Definition telegram (e : effect) : M unit :=
  fun s =>
    (mk_store (user_data s) (chat_data s) (sent s ++ [e]),
     telegram_answer w (sent s) e).

(** Lines 28-37: configuration. *)
Definition GEMINI_API_KEY : option string := environ !! "GEMINI_API_KEY".

Definition BOT_USERNAME : string :=
  lower (default "genz_mediator_bot" (environ !! "BOT_USERNAME")).

Definition CHATTING : Z := 1.

(** [ConversationHandler.END]. *)
Definition END : Z := (-1).

Definition GEMINI_API_URL : string :=
  "https://generativelanguage.googleapis.com/v1beta/models/gemini-2.0-flash:generateContent".

Definition HEADERS : list (string * string) :=
  [("Content-Type", "application/json")].

(** Lines 44-54: the provider messages, history first, prompt last. *)
Definition build_contents (prompt : value) (chat_history : list turn) : list value :=
  let contents :=
    fold_left
      (fun contents msg =>
         if String.eqb (role msg) "user" then
           contents ++ [VDict [("role", VStr "user");
                               ("parts", VList [VDict [("text", content msg)]])]]
         else
           contents ++ [VDict [("role", VStr "model");
                               ("parts", VList [VDict [("text", content msg)]])]])
      chat_history [] in
  contents ++ [VDict [("role", VStr "user");
                      ("parts", VList [VDict [("text", prompt)]])]].

(** Lines 56-62: the request body. *)
Definition build_data (prompt : value) (chat_history : list turn) : value :=
  VDict [("contents", VList (build_contents prompt chat_history));
         ("generationConfig",
          VDict [("temperature", VFloat 0.7%float);
                 ("maxOutputTokens", VInt 500)])].

(** Lines 66-71: the request. *)
Definition build_request (data : value) : Request.t :=
  Request.mk
    (GEMINI_API_URL +:+ "?key=" +:+ default "None" GEMINI_API_KEY)
    HEADERS data 30%float.

(** Line 76: [candidates[0]['content']['parts'][0]['text']]. *)
Definition first_candidate_text (candidates : value) : result value :=
  match getitem_index candidates 0 with
  | Raise e => Raise e
  | Ok candidate =>
      match getitem_key candidate "content" with
      | Raise e => Raise e
      | Ok c =>
          match getitem_key c "parts" with
          | Raise e => Raise e
          | Ok parts =>
              match getitem_index parts 0 with
              | Raise e => Raise e
              | Ok part => getitem_key part "text"
              end
          end
      end
  end.

(** Lines 73-80: what is made of the response. *)
Definition classify_response (response : Response.t) : result value :=
  if (Response.status_code response =? 200)%Z then
    match Response.json response with
    | Raise e => Raise e
    | Ok result =>
        match contains_str "candidates" result with
        | Raise e => Raise e
        | Ok false => Ok (VStr "Sorry, I couldn't generate a response.")
        | Ok true =>
            match getitem_key result "candidates" with
            | Raise e => Raise e
            | Ok candidates =>
                if truthy candidates then first_candidate_text candidates
                else Ok (VStr "Sorry, I couldn't generate a response.")
            end
        end
    end
  else
    Ok (VStr ("⚠️ API Error (Status: "
              +:+ str_int (Response.status_code response)
              +:+ "): " +:+ Response.text response)).

(** Lines 65-80: the body of the [try]. *)
Definition generation_call (data : value) : M value :=
  response <- client_post (build_request data) ;;
  lift (classify_response response).

(** Lines 39-84. *)
Definition generate_gemini_response
    (prompt : value) (chat_history : option (list turn)) : M value :=
  let chat_history := default [] chat_history in
  let data := build_data prompt chat_history in
  try_except
    (generation_call data)
    (fun e => ret (VStr "⚠️ Sorry, I encountered an error. Please try again later.")).

(** Lines 115-128. *)
Definition analysis_prompt (messages : list string) : string :=
  "You are an unbiased, emotionally intelligent AI mediator. "
  +:+ "Given these group messages, provide:" +:+ nl
  +:+ "1. A short, neutral summary" +:+ nl
  +:+ "2. An unbiased suggestion" +:+ nl
  +:+ "Format strictly as:" +:+ nl
  +:+ "Summary: <summary>" +:+ nl
  +:+ "Suggestion: <suggestion>" +:+ nl
  +:+ "Messages:" +:+ nl +:+ join nl (slice_from (-10) messages).

Definition analyze_conversation (messages : list string) : M value :=
  let prompt := analysis_prompt messages in
  generate_gemini_response (VStr prompt) None.

(** Lines 130-138. *)
Definition chat_with_ai (update : Update.t) : M Z :=
  _ <- user_data_set "chat_history" [] ;;
  _ <- lift (attr (Update.message update)) ;;
  _ <- telegram
         (ReplyText
            (VStr ("💬 You're now chatting with Gemini Flash AI. Send me any message!"
                   +:+ nl +:+ "Type /stop to end the chat."))
            (Some ReplyKeyboardRemove) None) ;;
  ret CHATTING.

(** Lines 140-148. *)
Definition stop_chat (update : Update.t) : M Z :=
  _ <- user_data_discard "chat_history" ;;
  _ <- lift (attr (Update.message update)) ;;
  _ <- telegram
         (ReplyText (VStr "👍 Chat ended. Start again with /chat!")
            (Some ReplyKeyboardRemove) None) ;;
  ret END.

(** Lines 150-178.  The two [append]s act on the list that was read from
    the store; the store itself is written once, with the slice. *)
Definition handle_ai_response (update : Update.t) : M Z :=
  try_except
    (message <- lift (attr (Update.message update)) ;;
     let user_message := of_optional (Message.text message) in
     chat <- lift (attr (Update.effective_chat update)) ;;
     _ <- telegram (SendChatAction (Chat.id chat) "typing") ;;
     chat_history <- user_data_get "chat_history" [] ;;
     response <- generate_gemini_response user_message (Some chat_history) ;;
     let chat_history := chat_history ++ [mk_turn "user" user_message] in
     let chat_history := chat_history ++ [mk_turn "model" response] in
     _ <- user_data_set "chat_history" (slice_from (-6) chat_history) ;;
     _ <- telegram (ReplyText response None None) ;;
     ret CHATTING)
    (fun e =>
       _ <- lift (attr (Update.message update)) ;;
       _ <- telegram
              (ReplyText (VStr "⚠️ An error occurred. Please try again.") None None) ;;
       ret CHATTING).

(** The line a group message is remembered as: [f"{first_name}: {text}"]. *)
Definition message_line (first_name text : string) : string :=
  first_name +:+ ": " +:+ text.

(** Lines 180-186. *)
Definition cache_messages (update : Update.t) : M unit :=
  match Update.effective_message update with
  | None => ret tt
  | Some message =>
      match Message.text message with
      | None => ret tt
      | Some text =>
          if String.eqb text "" then ret tt
          else
            chat_history <- chat_data_setdefault "recent_msgs" [] ;;
            from_user <- lift (attr (Message.from_user message)) ;;
            let chat_history :=
              chat_history ++ [message_line (User.first_name from_user) text] in
            chat_data_set "recent_msgs" (slice_from (-10) chat_history)
      end
  end.

(** Lines 192-196: the two early returns of [handle_group_mention]; the
    result is the message and its text when the handler goes on. *)
Definition mention_guard (update : Update.t) : option (Message.t * string * Chat.t) :=
  match Update.effective_message update with
  | None => None
  | Some message =>
      match Message.text message with
      | None => None
      | Some text =>
          if String.eqb text "" then None
          else
            match Update.effective_chat update with
            | None => None
            | Some chat =>
                if negb (str_in ("@" +:+ BOT_USERNAME) (lower text)) then None
                else Some (message, text, chat)
            end
      end
  end.

(** Lines 188-212. *)
Definition handle_group_mention (update : Update.t) : M unit :=
  try_except
    (match mention_guard update with
     | None => ret tt
     | Some (message, text, chat) =>
         _ <- telegram (SendChatAction (Chat.id chat) "typing") ;;
         chat_history <- chat_data_get "recent_msgs" [] ;;
         from_user <- lift (attr (Message.from_user message)) ;;
         let chat_history :=
           chat_history ++ [message_line (User.first_name from_user) text] in
         _ <- chat_data_set "recent_msgs" (slice_from (-10) chat_history) ;;
         analysis <- analyze_conversation chat_history ;;
         telegram (ReplyText analysis None (Some (Message.message_id message)))
     end)
    (fun e =>
       _ <- lift (attr (Update.effective_message update)) ;;
       telegram (ReplyText (VStr "⚠️ Error processing request.") None None)).

(** The dispatcher of the SDK hands the updates to a handler one after the
    other; the stores outlive an exception that leaves the handler. *)
Definition process_updates {A : Type}
    (handler : Update.t -> M A) (updates : list Update.t) (s : store) : store :=
  fold_left (fun s update => fst (handler update s)) updates s.

End Program.

End Bot.

(** ** The vocabulary of the specification *)

Module Spec.
Import Py Bot.

(** The most recent [n] entries of a buffer. *)
Definition last_n {A : Type} (n : nat) (xs : list A) : list A :=
  drop (length xs - n) xs.

(** A Turn as a provider message, its role kept as it is. *)
Definition provider_message (t : turn) : value :=
  VDict [("role", VStr (role t));
         ("parts", VList [VDict [("text", content t)]])].

(** The fixed generation parameters. *)
Definition generation_config : value :=
  VDict [("temperature", VFloat 0.7%float); ("maxOutputTokens", VInt 500)].

(** The text of a candidate of the shape
    [{content: {parts: [{text}, ...]}}]. *)
Definition candidate_text (candidate : value) : option value :=
  match candidate with
  | VDict c =>
      match dict_get "content" c with
      | Some (VDict c') =>
          match dict_get "parts" c' with
          | Some (VList (VDict part :: _)) => dict_get "text" part
          | _ => None
          end
      | _ => None
      end
  | _ => None
  end.

(** The two fixed answers of the generation client. *)
Definition placeholder : string := "Sorry, I couldn't generate a response.".

Definition apology : string :=
  "⚠️ Sorry, I encountered an error. Please try again later.".

(** The ConversationHistory and the GroupMessageLog as a handler reads
    them: a missing key reads as the empty sequence. *)
Definition history (s : store) : list turn :=
  default [] (user_data s !! "chat_history").

Definition group_log (s : store) : list string :=
  default [] (chat_data s !! "recent_msgs").

(** One exchange, a user message and the answer to it, as a pair of Turns. *)
Definition pair_turns (x : value * value) : list turn :=
  [mk_turn "user" x.1; mk_turn "model" x.2].

(** Turns that go user, model, user, model, ... and end on a model Turn. *)
Fixpoint paired (h : list turn) : bool :=
  match h with
  | [] => true
  | u :: m :: h' =>
      String.eqb (role u) "user" && String.eqb (role m) "model" && paired h'
  | _ => false
  end.

Definition begins_with_model (h : list turn) : bool :=
  match h with
  | t :: _ => String.eqb (role t) "model"
  | [] => false
  end.

(** The line a group text message stands for, when it has a text and a
    sender: the first name of the sender, a colon, a space, the text. *)
Definition group_line (update : Update.t) : option string :=
  match Update.effective_message update with
  | Some message =>
      match Message.text message, Message.from_user message with
      | Some text, Some user =>
          if String.eqb text "" then None
          else Some (User.first_name user +:+ ": " +:+ text)
      | _, _ => None
      end
  | None => None
  end.

(** The request the generation client sends for a prompt and a history. *)
Definition request_for (environ : gmap string string)
    (prompt : value) (chat_history : option (list turn)) : Request.t :=
  build_request environ (build_data prompt (default [] chat_history)).

Section Exchanges.

Variable environ : gmap string string.
Variable w : world.

(** The exchange that [handle_ai_response] carries out on an update: the
    user message and the answer generated for it.  There is none when the
    update has no message or chat, or when the typing notification fails. *)
Definition exchange_of (update : Update.t) (s : store) : option (value * value) :=
  match Update.message update, Update.effective_chat update with
  | Some message, Some chat =>
      match telegram w (SendChatAction (Chat.id chat) "typing") s with
      | (s1, Ok _) =>
          let user_message := of_optional (Message.text message) in
          match generate_gemini_response environ w user_message (Some (history s1)) s1 with
          | (_, Ok response) => Some (user_message, response)
          | (_, Raise _) => None
          end
      | (_, Raise _) => None
      end
  | _, _ => None
  end.

(** The exchanges carried out along a sequence of updates. *)
Fixpoint exchanges (updates : list Update.t) (s : store) : list (value * value) :=
  match updates with
  | [] => []
  | update :: updates' =>
      from_option (fun x => [x]) [] (exchange_of update s)
      ++ exchanges updates' (handle_ai_response environ w update s).1
  end.

End Exchanges.

End Spec.


(** ** Concrete stores and worlds, used to run the model *)

Module Examples.
Import Py Bot.

Definition empty_store : store := mk_store ∅ ∅ [].

Definition environ : gmap string string := {["GEMINI_API_KEY" := "k3y"]}.

(** A world whose endpoint always gives the same answer and whose
    messaging calls all go through. *)
Definition constant_world (answer : result Response.t) : world :=
  mk_world (fun _ _ => answer) (fun _ _ => Ok tt).

(** A world whose endpoint answers with the number of calls made so far. *)
Definition counting_world : world :=
  mk_world
    (fun past _ =>
       Ok (Response.mk 200 EmptyString
             (Ok (VDict [("candidates",
                          VList [VDict [("content",
                                         VDict [("parts",
                                                 VList [VDict [("text", VInt (Z.of_nat (length past)))]])])]])]))))
    (fun _ _ => Ok tt).

Definition reply (text : string) : Response.t :=
  Response.mk 200 EmptyString
    (Ok (VDict [("candidates",
                 VList [VDict [("content",
                                VDict [("parts", VList [VDict [("text", VStr text)]])])]])])).

Definition private_update (text : string) : Update.t :=
  let message := Message.mk (Some text) (Some (User.mk "Ann")) 1 in
  Update.mk (Some message) (Some message) (Some (Chat.mk 7)).

Definition group_update (first_name text : string) : Update.t :=
  let message := Message.mk (Some text) (Some (User.mk first_name)) 1 in
  Update.mk (Some message) (Some message) (Some (Chat.mk (-100))).

(** ASCII lower-casing, standing in for [str.lower]. *)
Definition ascii_lower (a : ascii) : ascii :=
  let n := nat_of_ascii a in
  if (65 <=? n)%nat && (n <=? 90)%nat then ascii_of_nat (n + 32) else a.

Fixpoint lower (s : string) : string :=
  match s with
  | EmptyString => EmptyString
  | String a s' => String (ascii_lower a) (lower s')
  end.

End Examples.

(** ** The rest of the program: the welcome command, the start-up and the
    two writers of the group log side by side *)

Module Rest.
Import Py Bot Spec.

(** An update together with [update.effective_user], which only the
    welcome command reads. *)
Record user_update : Type := mk_user_update {
  update_of : Update.t;
  effective_user : option User.t }.

(** [filters.X], combined with [&] and [~]. *)
Inductive filter : Type :=
  | ChatType_GROUPS
  | TEXT
  | COMMAND
  | Entity (kind : string)
  | And (f g : filter)
  | Not (f : filter).

(** The callbacks of the program, by name. *)
Inductive callback : Type :=
  | cb_start
  | cb_help_command
  | cb_chat_with_ai
  | cb_stop_chat
  | cb_handle_ai_response
  | cb_cache_messages
  | cb_handle_group_mention.

(** What [main] registers with the application. *)
Inductive registration : Type :=
  | CommandHandler (command : string) (cb : callback)
  | MessageHandler (f : filter) (cb : callback)
  | ConversationHandler (entry_points : list registration)
      (states : list (Z * list registration)) (fallbacks : list registration).

(** How [main] ends: with an error in the log, or polling with a token and
    its handlers. *)
Inductive startup : Type :=
  | Refused (logged : string)
  | Polling (token : string) (handlers : list registration).

(** [not x] for an optional string. *)
Definition not_set (o : option string) : bool :=
  match o with
  | None => true
  | Some s => String.eqb s ""
  end.

(** An update of a group chat, as the dispatcher hands it to one of the
    two handlers that write the log. *)
Inductive group_event : Type :=
  | Cached (update : Update.t)
  | Mentioned (update : Update.t).

Section Program.

Variable environ : gmap string string.
Variable lower : string -> string.
Variable w : world.

(** Lines 89-96. *)
Definition welcome_message (first_name : string) : string :=
  "👋 Hi " +:+ first_name
  +:+ "! I'm your AI Mediator Bot powered by Gemini Flash." +:+ nl +:+ nl
  +:+ "In groups, mention me (@" +:+ BOT_USERNAME environ lower
  +:+ ") to analyze conversations." +:+ nl +:+ nl
  +:+ "Commands available:" +:+ nl
  +:+ "/help - Show help message" +:+ nl
  +:+ "/chat - Start a conversation" +:+ nl
  +:+ "/stop - End conversation".

(** Lines 86-97. *)
Definition start (update : user_update) : M unit :=
  let user := effective_user update in
  user <- lift (attr user) ;;
  let welcome_message := welcome_message (User.first_name user) in
  message <- lift (attr (Update.message (update_of update))) ;;
  telegram w (ReplyText (VStr welcome_message) None None).

(** Line 28. *)
Definition TELEGRAM_BOT_TOKEN : option string := environ !! "TELEGRAM_BOT_TOKEN".

(** Lines 225-253: the handlers, in the order of their registration. *)
Definition handlers : list registration :=
  [CommandHandler "start" cb_start;
   CommandHandler "help" cb_help_command;
   ConversationHandler
     [CommandHandler "chat" cb_chat_with_ai]
     [(CHATTING, [MessageHandler (And TEXT (Not COMMAND)) cb_handle_ai_response])]
     [CommandHandler "stop" cb_stop_chat];
   MessageHandler (And (And ChatType_GROUPS TEXT) (Not COMMAND)) cb_cache_messages;
   MessageHandler (And (And ChatType_GROUPS TEXT) (Entity "mention"))
     cb_handle_group_mention].

(** Lines 214-256. *)
Definition main : startup :=
  if not_set TELEGRAM_BOT_TOKEN then Refused "Missing TELEGRAM_BOT_TOKEN in .env"
  else if not_set (GEMINI_API_KEY environ) then Refused "Missing GEMINI_API_KEY in .env"
  else Polling (default EmptyString TELEGRAM_BOT_TOKEN) handlers.

(** The handler an update of a group chat is given to. *)
Definition handle_group_event (event : group_event) : M unit :=
  match event with
  | Cached update => cache_messages update
  | Mentioned update => handle_group_mention environ lower w update
  end.

Definition process_events (events : list group_event) (s : store) : store :=
  fold_left (fun s event => (handle_group_event event s).1) events s.

(** The line an event adds to the log, if any: the line of a cached text
    message, or the line of a mention that gets past the guards, the
    typing notification and the look-up of its sender. *)
Definition appended_line (event : group_event) (s : store) : option string :=
  match event with
  | Cached update => group_line update
  | Mentioned update =>
      match mention_guard environ lower update with
      | Some (message, text, chat) =>
          match telegram_answer w (sent s) (SendChatAction (Chat.id chat) "typing"),
                Message.from_user message with
          | Ok _, Some user => Some (message_line (User.first_name user) text)
          | _, _ => None
          end
      | None => None
      end
  end.

Fixpoint appended_lines (events : list group_event) (s : store) : list string :=
  match events with
  | [] => []
  | event :: events' =>
      from_option (fun line => [line]) [] (appended_line event s)
      ++ appended_lines events' (handle_group_event event s).1
  end.

End Program.

(** JSON values that are neither objects, arrays nor strings. *)
Definition scalar (v : value) : bool :=
  match v with
  | VNone | VBool _ | VInt _ | VFloat _ => true
  | _ => false
  end.

(** The calls to the generation endpoint among the calls made. *)
Definition posts (calls : list effect) : list Request.t :=
  omap (fun e => match e with Post request => Some request | _ => None end) calls.

(** Turns that go user, model, ... are the Turns of a list of exchanges. *)
Fixpoint exchanges_of_turns (h : list turn) : list (value * value) :=
  match h with
  | u :: m :: h' => (content u, content m) :: exchanges_of_turns h'
  | _ => []
  end.

End Rest.

(** ** More stores, worlds and updates to run the model on *)

Module MoreExamples.
Import Py Bot Rest.

(** A world in which every typing notification fails and everything else
    goes through. *)
Definition typing_fails : world :=
  mk_world
    (fun _ _ => Ok (Examples.reply "Hi!"))
    (fun _ e =>
       match e with
       | SendChatAction _ _ => Raise TelegramError
       | _ => Ok tt
       end).

(** A 200 answer with a given parsed body. *)
Definition answer (body : value) : Response.t :=
  Response.mk 200 EmptyString (Ok body).

(** A group message that has a text and no sender. *)
Definition anonymous_update (text : string) : Update.t :=
  let message := Message.mk (Some text) None 1 in
  Update.mk (Some message) (Some message) (Some (Chat.mk (-100))).

(** An update that carries no message at all. *)
Definition empty_update : Update.t := Update.mk None None None.

(** A store that remembers one exchange. *)
Definition one_exchange : store :=
  mk_store
    {["chat_history" := [mk_turn "user" (VStr "hello"); mk_turn "model" (VStr "Hi!")]]}
    ∅ [].

Definition ten_lines : list string :=
  ["l1"; "l2"; "l3"; "l4"; "l5"; "l6"; "l7"; "l8"; "l9"; "l10"].

End MoreExamples.

(** ** Facts about the runtime *)

Section PyFacts.
Import Py.

Lemma prefix_append (s t : string) : String.prefix s (s +:+ t) = true.
Proof.
  induction s as [|a s IH]; simpl.
  - now destruct t.
  - destruct (ascii_dec a a); [exact IH | congruence].
Qed.

Lemma str_in_unfold (sub s : string) :
  str_in sub s
  = String.prefix sub s
    || match s with
       | EmptyString => false
       | String _ s' => str_in sub s'
       end.
Proof. now destruct s. Qed.

(** A string occurs in whatever is put around it. *)
Lemma str_in_append (a sub b : string) : str_in sub (a +:+ sub +:+ b) = true.
Proof.
  induction a as [|c a IH].
  - change (EmptyString +:+ sub +:+ b) with (sub +:+ b).
    rewrite str_in_unfold, prefix_append. reflexivity.
  - change (String c a +:+ sub +:+ b) with (String c (a +:+ sub +:+ b)).
    rewrite str_in_unfold, IH. apply orb_true_r.
Qed.

Lemma append_nil_r (s : string) : s +:+ EmptyString = s.
Proof.
  induction s as [|c s IH]; [reflexivity |].
  change (String c (s +:+ EmptyString) = String c s). now f_equal.
Qed.

Lemma append_assoc (a b c : string) : (a +:+ b) +:+ c = a +:+ b +:+ c.
Proof.
  induction a as [|x a IH]; [reflexivity |].
  change (String x ((a +:+ b) +:+ c) = String x (a +:+ b +:+ c)). now f_equal.
Qed.

Lemma prefix_append_l (sub s t : string) :
  String.prefix sub s = true -> String.prefix sub (s +:+ t) = true.
Proof.
  revert s. induction sub as [|c sub IH]; intros s H.
  - now destruct (s +:+ t).
  - destruct s as [|c' s]; [discriminate|].
    change (String c' s +:+ t) with (String c' (s +:+ t)).
    simpl in *. destruct (ascii_dec c c'); [now apply IH | discriminate].
Qed.

(** What occurs in a string occurs in every extension of it. *)
Lemma str_in_append_l (sub s t : string) :
  str_in sub s = true -> str_in sub (s +:+ t) = true.
Proof.
  induction s as [|c s IH]; intros H.
  - destruct sub; [|discriminate]. now destruct t.
  - change (String c s +:+ t) with (String c (s +:+ t)).
    rewrite str_in_unfold in H. rewrite str_in_unfold.
    apply orb_true_iff in H as [H|H]; apply orb_true_iff.
    + left. now apply (prefix_append_l sub (String c s) t).
    + right. now apply IH.
Qed.

Lemma str_in_suffix (a sub : string) : str_in sub (a +:+ sub) = true.
Proof.
  rewrite <- (append_nil_r sub) at 2. apply str_in_append.
Qed.

(** [xs[-n:]] keeps the last [n] entries. *)
Lemma slice_from_neg {A : Type} (n : nat) (xs : list A) :
  (0 < n)%nat -> slice_from (- (Z.of_nat n)) xs = Spec.last_n n xs.
Proof.
  intros Hn. unfold slice_from, Spec.last_n.
  assert ((- Z.of_nat n <? 0)%Z = true) as -> by (apply Z.ltb_lt; lia).
  f_equal. lia.
Qed.

Lemma length_last_n {A : Type} (n : nat) (xs : list A) :
  length (Spec.last_n n xs) = min (length xs) n.
Proof. unfold Spec.last_n. rewrite length_drop. lia. Qed.

(** Trimming before an append does not change what a later trim keeps. *)
Lemma last_n_app_last_n {A : Type} (n : nat) (xs ys : list A) :
  Spec.last_n n (Spec.last_n n xs ++ ys) = Spec.last_n n (xs ++ ys).
Proof.
  unfold Spec.last_n. rewrite !length_app, length_drop.
  rewrite !drop_app, drop_drop, length_drop.
  f_equal; f_equal; lia.
Qed.

Lemma last_n_idem {A : Type} (n : nat) (xs : list A) :
  Spec.last_n n (Spec.last_n n xs) = Spec.last_n n xs.
Proof.
  rewrite <- (app_nil_r (Spec.last_n n xs)) at 1.
  now rewrite last_n_app_last_n, app_nil_r.
Qed.

(** A joined text ends with its last line. *)
Lemma join_snoc (sep : string) (xs : list string) (x : string) :
  exists head : string, join sep (xs ++ [x]) = head +:+ x.
Proof.
  unfold join. induction xs as [|y xs [head IH]].
  - now exists EmptyString.
  - change ((y :: xs) ++ [x]) with (y :: (xs ++ [x])).
    destruct (xs ++ [x]) as [|z zs] eqn:E; [now destruct xs|].
    exists (y +:+ sep +:+ head).
    change (String.concat sep (y :: z :: zs))
      with (y +:+ sep +:+ String.concat sep (z :: zs)).
    rewrite IH. now rewrite !append_assoc.
Qed.

Lemma last_n_app_one {A : Type} (n : nat) (xs : list A) (x : A) :
  (0 < n)%nat -> last (Spec.last_n n (xs ++ [x])) = Some x.
Proof.
  intros Hn. unfold Spec.last_n. rewrite length_app. simpl.
  rewrite drop_app_le by lia. apply last_snoc.
Qed.

End PyFacts.

(** ** The generation client *)

Section GenerationClient.
Import Py Bot Spec.

Variable environ : gmap string string.
Variable w : world.

(** The message the code makes of a Turn. *)
Lemma build_contents_map (prompt : value) (chat_history : list turn) :
  build_contents prompt chat_history
  = map (fun t => provider_message
                    (mk_turn (if String.eqb (role t) "user" then "user" else "model")
                             (content t)))
        chat_history
    ++ [provider_message (mk_turn "user" prompt)].
Proof.
  unfold build_contents. f_equal.
  match goal with
  | |- fold_left ?F _ _ = map ?G _ =>
      enough (forall acc, fold_left F chat_history acc = acc ++ map G chat_history)
        as H by exact (H [])
  end.
  induction chat_history as [|t h IH]; intros acc; simpl.
  - now rewrite app_nil_r.
  - rewrite IH. destruct (String.eqb (role t) "user");
      now rewrite <- app_assoc.
Qed.

(** One run of the client: exactly one request goes out, the stores are
    left alone, and every exception ends in the apology. *)
Lemma generate_run (prompt : value) (chat_history : option (list turn)) (s : store) :
  generate_gemini_response environ w prompt chat_history s
  = (mk_store (user_data s) (chat_data s)
       (sent s ++ [Post (request_for environ prompt chat_history)]),
     Ok match http_answer w (sent s) (request_for environ prompt chat_history) with
        | Ok response =>
            match classify_response response with
            | Ok v => v
            | Raise _ => VStr apology
            end
        | Raise _ => VStr apology
        end).
Proof.
  unfold generate_gemini_response, generation_call, try_except, bind, lift, ret,
    client_post, request_for.
  destruct (http_answer w (sent s) _) as [response|e]; [|reflexivity].
  destruct (classify_response response); reflexivity.
Qed.

Lemma generation_call_transport (data : value) (s : store) (e : exn) :
  http_answer w (sent s) (build_request environ data) = Raise e ->
  (generation_call environ w data s).2 = Raise e.
Proof.
  intros H. unfold generation_call, bind, client_post. now rewrite H.
Qed.

Lemma generation_call_answer (data : value) (s : store) (response : Response.t) :
  http_answer w (sent s) (build_request environ data) = Ok response ->
  (generation_call environ w data s).2 = classify_response response.
Proof.
  intros H. unfold generation_call, bind, client_post, lift. now rewrite H.
Qed.

(** The code's walk down to the text agrees with the shape of a candidate. *)
Lemma first_candidate_text_shape (candidate text : value) (rest : list value) :
  candidate_text candidate = Some text ->
  first_candidate_text (VList (candidate :: rest)) = Ok text.
Proof.
  unfold candidate_text, first_candidate_text. simpl.
  destruct candidate as [| | | | | |c]; try discriminate. simpl.
  destruct (dict_get "content" c) as [[| | | | | |c']|]; try discriminate. simpl.
  destruct (dict_get "parts" c') as [[| | | | |[|[| | | | | |part] parts]|]|];
    try discriminate.
  simpl. unfold seq_index. simpl.
  intros ->. reflexivity.
Qed.

(** C3: a non-success status comes back as a string that holds the status
    code and the raw body. *)
Theorem generate_api_error
    (prompt : value) (chat_history : option (list turn)) (s : store)
    (response : Response.t) :
  http_answer w (sent s) (request_for environ prompt chat_history) = Ok response ->
  Response.status_code response <> 200%Z ->
  exists r : string,
    (generate_gemini_response environ w prompt chat_history s).2 = Ok (VStr r)
    /\ r = "⚠️ API Error (Status: " +:+ str_int (Response.status_code response)
           +:+ "): " +:+ Response.text response
    /\ str_in (str_int (Response.status_code response)) r = true
    /\ str_in (Response.text response) r = true.
Proof.
  intros Hpost Hstatus. eexists. rewrite generate_run, Hpost.
  unfold classify_response.
  destruct (Z.eqb_spec (Response.status_code response) 200) as [|_]; [contradiction|].
  simpl. split; [reflexivity|]. split; [reflexivity|]. split.
  - apply str_in_append.
  - rewrite <- (append_assoc (str_int _)), <- append_assoc. apply str_in_suffix.
Qed.

(** C4: a success status without candidates gives the fixed placeholder,
    a value and not an exception, and not the empty text. *)
Theorem generate_no_candidates
    (prompt : value) (chat_history : option (list turn)) (s : store)
    (response : Response.t) (body : list (string * value)) :
  http_answer w (sent s) (request_for environ prompt chat_history) = Ok response ->
  Response.status_code response = 200%Z ->
  Response.json response = Ok (VDict body) ->
  dict_get "candidates" body = None \/ dict_get "candidates" body = Some (VList []) ->
  (generate_gemini_response environ w prompt chat_history s).2
  = Ok (VStr "Sorry, I couldn't generate a response.")
  /\ "Sorry, I couldn't generate a response." <> EmptyString.
Proof.
  intros Hpost Hstatus Hjson Hcandidates. split; [|discriminate].
  rewrite generate_run, Hpost. unfold classify_response.
  rewrite Hstatus, Hjson. simpl.
  destruct Hcandidates as [-> | ->]; reflexivity.
Qed.

(** C5: a success status with a candidate gives the text of the first
    candidate, the very value that came in. *)
Theorem generate_first_candidate
    (prompt : value) (chat_history : option (list turn)) (s : store)
    (response : Response.t) (body : list (string * value))
    (candidate : value) (others : list value) (text : value) :
  http_answer w (sent s) (request_for environ prompt chat_history) = Ok response ->
  Response.status_code response = 200%Z ->
  Response.json response = Ok (VDict body) ->
  dict_get "candidates" body = Some (VList (candidate :: others)) ->
  candidate_text candidate = Some text ->
  (generate_gemini_response environ w prompt chat_history s).2 = Ok text.
Proof.
  intros Hpost Hstatus Hjson Hcandidates Htext.
  rewrite generate_run, Hpost. unfold classify_response.
  rewrite Hstatus, Hjson. simpl. rewrite Hcandidates. simpl.
  now rewrite (first_candidate_text_shape _ _ _ Htext).
Qed.


(** The body of the request, when every Turn is a user or a model Turn. *)
Lemma request_json_roles (prompt : value) (chat_history : option (list turn)) :
  Forall (fun t => role t = "user" \/ role t = "model") (default [] chat_history) ->
  Request.json (request_for environ prompt chat_history)
  = VDict [("contents",
            VList (map provider_message (default [] chat_history)
                   ++ [provider_message (mk_turn "user" prompt)]));
           ("generationConfig",
            VDict [("temperature", VFloat 0.7%float);
                   ("maxOutputTokens", VInt 500)])].
Proof.
  intros Hroles. unfold request_for, build_request, build_data. simpl.
  rewrite build_contents_map. do 4 f_equal.
  induction Hroles as [|t h Ht _ IH]; [reflexivity|].
  simpl. rewrite IH. f_equal.
  destruct t as [r c]. simpl in *. now destruct Ht as [-> | ->].
Qed.

(** C7: the request body lists the history in its order, every Turn under
    its own role, then the prompt as a user message, and carries the fixed
    generation parameters. *)
Theorem generate_request_body
    (prompt : value) (chat_history : option (list turn)) (s : store) :
  Forall (fun t => role t = "user" \/ role t = "model") (default [] chat_history) ->
  exists request : Request.t,
    sent (generate_gemini_response environ w prompt chat_history s).1
    = sent s ++ [Post request]
    /\ Request.json request
       = VDict [("contents",
                 VList (map provider_message (default [] chat_history)
                        ++ [provider_message (mk_turn "user" prompt)]));
                ("generationConfig",
                 VDict [("temperature", VFloat 0.7%float);
                        ("maxOutputTokens", VInt 500)])].
Proof.
  intros Hroles. exists (request_for environ prompt chat_history).
  rewrite generate_run. split; [reflexivity|].
  now apply request_json_roles.
Qed.

End GenerationClient.

(** *** The generation client on concrete answers *)

Example generate_api_error_run :
  (Bot.generate_gemini_response Examples.environ
     (Examples.constant_world
        (Py.Ok (Bot.Response.mk 429 "quota exceeded" (Py.Raise Py.JSONDecodeError))))
     (Py.VStr "hi") None Examples.empty_store).2
  = Py.Ok (Py.VStr "⚠️ API Error (Status: 429): quota exceeded").
Proof. reflexivity. Qed.

Example generate_reply_run :
  (Bot.generate_gemini_response Examples.environ
     (Examples.constant_world (Py.Ok (Examples.reply "  hello  ")))
     (Py.VStr "hi") None Examples.empty_store).2
  = Py.Ok (Py.VStr "  hello  ").
Proof. reflexivity. Qed.

Example generate_unshaped_candidate_run :
  (Bot.generate_gemini_response Examples.environ
     (Examples.constant_world
        (Py.Ok (Bot.Response.mk 200 EmptyString
                  (Py.Ok (Py.VDict [("candidates",
                                     Py.VList [Py.VDict [("finishReason", Py.VStr "SAFETY")]])])))))
     (Py.VStr "hi") None Examples.empty_store).2
  = Py.Ok (Py.VStr "⚠️ Sorry, I encountered an error. Please try again later.").
Proof. reflexivity. Qed.

Example generate_request_url_run :
  Bot.Request.url (Spec.request_for Examples.environ (Py.VStr "hi") None)
  = "https://generativelanguage.googleapis.com/v1beta/models/gemini-2.0-flash:generateContent?key=k3y".
Proof. vm_compute. reflexivity. Qed.

(** Only 200 counts as success: a 201 is reported like an error. *)
Example generate_created_run :
  (Bot.generate_gemini_response Examples.environ
     (Examples.constant_world
        (Py.Ok (Bot.Response.mk 201 "created" (Py.Ok (Py.VDict [])))))
     (Py.VStr "hi") None Examples.empty_store).2
  = Py.Ok (Py.VStr "⚠️ API Error (Status: 201): created").
Proof. reflexivity. Qed.

Lemma generate_api_error_witness :
  let w := Examples.constant_world
             (Py.Ok (Bot.Response.mk 404 "no such model" (Py.Raise Py.JSONDecodeError))) in
  exists r : string,
    (Bot.generate_gemini_response Examples.environ w (Py.VStr "hi") None
       Examples.empty_store).2 = Py.Ok (Py.VStr r)
    /\ r = "⚠️ API Error (Status: " +:+ Py.str_int 404 +:+ "): " +:+ "no such model"
    /\ Py.str_in (Py.str_int 404) r = true
    /\ Py.str_in "no such model" r = true.
Proof.
  intros w.
  apply (generate_api_error Examples.environ w (Py.VStr "hi") None Examples.empty_store
           (Bot.Response.mk 404 "no such model" (Py.Raise Py.JSONDecodeError))).
  - reflexivity.
  - simpl. lia.
Defined.

Lemma generate_no_candidates_witness :
  let response := Bot.Response.mk 200 "{}" (Py.Ok (Py.VDict [])) in
  (Bot.generate_gemini_response Examples.environ
     (Examples.constant_world (Py.Ok response)) (Py.VStr "hi") None
     Examples.empty_store).2
  = Py.Ok (Py.VStr "Sorry, I couldn't generate a response.")
  /\ "Sorry, I couldn't generate a response." <> EmptyString.
Proof.
  intros response.
  apply (generate_no_candidates Examples.environ
           (Examples.constant_world (Py.Ok response)) (Py.VStr "hi") None
           Examples.empty_store response []).
  - reflexivity.
  - reflexivity.
  - reflexivity.
  - left. reflexivity.
Defined.

Lemma generate_first_candidate_witness :
  (Bot.generate_gemini_response Examples.environ
     (Examples.constant_world (Py.Ok (Examples.reply " Hi there. ")))
     (Py.VStr "hi") None Examples.empty_store).2
  = Py.Ok (Py.VStr " Hi there. ").
Proof.
  eapply (generate_first_candidate Examples.environ
            (Examples.constant_world (Py.Ok (Examples.reply " Hi there. ")))
            (Py.VStr "hi") None Examples.empty_store
            (Examples.reply " Hi there. ")).
  - reflexivity.
  - reflexivity.
  - reflexivity.
  - reflexivity.
  - reflexivity.
Defined.


Lemma generate_request_body_witness :
  let h := [Bot.mk_turn "user" (Py.VStr "hello"); Bot.mk_turn "model" (Py.VStr "Hi!")] in
  exists request : Bot.Request.t,
    Bot.sent (Bot.generate_gemini_response Examples.environ
                (Examples.constant_world (Py.Raise Py.HTTPError))
                (Py.VStr "and you?") (Some h) Examples.empty_store).1
    = [Bot.Post request]
    /\ Bot.Request.json request
       = Py.VDict [("contents",
                    Py.VList (map Spec.provider_message h
                              ++ [Spec.provider_message
                                    (Bot.mk_turn "user" (Py.VStr "and you?"))]));
                   ("generationConfig",
                    Py.VDict [("temperature", Py.VFloat 0.7%float);
                              ("maxOutputTokens", Py.VInt 500)])].
Proof.
  intros h.
  apply (generate_request_body Examples.environ
           (Examples.constant_world (Py.Raise Py.HTTPError))
           (Py.VStr "and you?") (Some h) Examples.empty_store).
  simpl. constructor; [left; reflexivity|].
  constructor; [right; reflexivity|]. constructor.
Defined.

(** ** The private conversation history *)

Section ConversationHistory.
Import Py Bot Spec.

Variable environ : gmap string string.
Variable w : world.

Lemma slice_last_6 {A : Type} (xs : list A) : slice_from (-6) xs = last_n 6 xs.
Proof. apply (slice_from_neg 6). lia. Qed.

Lemma length_pairs (xs : list (value * value)) :
  length (flat_map pair_turns xs) = 2 * length xs.
Proof. induction xs as [|x xs IH]; simpl; lia. Qed.

Lemma drop_pairs (k : nat) (xs : list (value * value)) :
  drop (2 * k) (flat_map pair_turns xs) = flat_map pair_turns (drop k xs).
Proof.
  revert xs. induction k as [|k IH]; intros xs; [reflexivity|].
  destruct xs as [|x xs]; [reflexivity|].
  replace (2 * S k) with (S (S (2 * k))) by lia. simpl. apply IH.
Qed.

(** Six Turns are three exchanges. *)
Lemma last_6_pairs (xs : list (value * value)) :
  last_n 6 (flat_map pair_turns xs) = flat_map pair_turns (last_n 3 xs).
Proof.
  unfold last_n. rewrite length_pairs, <- drop_pairs. f_equal. lia.
Qed.

Lemma paired_pairs (xs : list (value * value)) :
  paired (flat_map pair_turns xs) = true.
Proof. induction xs as [|x xs IH]; [reflexivity|]. simpl. exact IH. Qed.

Lemma pairs_begin_with_user (xs : list (value * value)) :
  begins_with_model (flat_map pair_turns xs) = false.
Proof. now destruct xs. Qed.

(** One run of the handler: with an exchange the history gets the two
    Turns and is cut to its last six; without one it is left as it was. *)
Lemma handle_ai_response_step (update : Update.t) (s : store) :
  user_data (handle_ai_response environ w update s).1
  = match exchange_of environ w update s with
    | Some x =>
        <["chat_history" := slice_from (-6) (history s ++ pair_turns x)]> (user_data s)
    | None => user_data s
    end.
Proof.
  unfold handle_ai_response, exchange_of, try_except, bind, lift, ret, attr.
  destruct (Update.message update) as [message|]; [|reflexivity].
  destruct (Update.effective_chat update) as [chat|]; simpl.
  - destruct (telegram_answer w (sent s) _) as [[]|e]; simpl.
    + unfold history at 1. simpl. rewrite generate_run. simpl.
      destruct (telegram_answer w _ (ReplyText _ _ _)) as [[]|e]; simpl.
      * now rewrite <- app_assoc.
      * destruct (telegram_answer w _ _); simpl; now rewrite <- app_assoc.
    + destruct (telegram_answer w _ _); reflexivity.
  - destruct (telegram_answer w _ _); reflexivity.
Qed.

Lemma history_step (update : Update.t) (s : store) :
  history (handle_ai_response environ w update s).1
  = match exchange_of environ w update s with
    | Some x => last_n 6 (history s ++ pair_turns x)
    | None => history s
    end.
Proof.
  unfold history at 1. rewrite handle_ai_response_step.
  destruct (exchange_of environ w update s) as [x|]; [|reflexivity].
  rewrite lookup_insert_eq. simpl. apply slice_last_6.
Qed.

(** The history is the last six Turns of everything exchanged so far. *)
Lemma history_after_updates (updates : list Update.t) :
  forall (s : store) (previous : list (value * value)),
    history s = last_n 6 (flat_map pair_turns previous) ->
    history (process_updates (handle_ai_response environ w) updates s)
    = last_n 6 (flat_map pair_turns (previous ++ exchanges environ w updates s)).
Proof.
  induction updates as [|update updates IH]; intros s previous Hs; simpl.
  - now rewrite app_nil_r.
  - unfold process_updates in *. simpl.
    rewrite (IH _ (previous ++ from_option (fun x => [x]) [] (exchange_of environ w update s))).
    + now rewrite <- app_assoc.
    + rewrite history_step.
      destruct (exchange_of environ w update s) as [x|]; simpl.
      * rewrite Hs, last_n_app_last_n, flat_map_app. simpl.
        now rewrite ?app_nil_r.
      * now rewrite ?app_nil_r.
Qed.

(** C1: after every prefix of a run of [handle_ai_response] that starts
    from an empty history, the history has min(2k, 6) Turns for the k
    exchanges made, these are the Turns of the most recent exchanges (at
    most three), they go user, model in pairs, and the first is never a
    model Turn. *)
Theorem private_history_window
    (updates : list Update.t) (s0 : store) (n : nat) :
  history s0 = [] ->
  let s := process_updates (handle_ai_response environ w) (take n updates) s0 in
  let made := exchanges environ w (take n updates) s0 in
  length (history s) = min (2 * length made) 6
  /\ history s = last_n 6 (flat_map pair_turns made)
  /\ history s = flat_map pair_turns (last_n 3 made)
  /\ paired (history s) = true
  /\ begins_with_model (history s) = false.
Proof.
  intros H0 s made.
  assert (history s = last_n 6 (flat_map pair_turns made)) as Hs.
  { subst s made. now rewrite (history_after_updates _ s0 []). }
  rewrite Hs. split; [|split; [reflexivity|]].
  - rewrite length_last_n, length_pairs. lia.
  - rewrite last_6_pairs.
    split; [reflexivity|]. split; [apply paired_pairs | apply pairs_begin_with_user].
Qed.

(** C9: /chat stores the empty history, /stop removes the key, whether or
    not there was one, and goes through whenever its reply does; after
    either of them a handler reads the empty history. *)
Theorem chat_and_stop_reset (update : Update.t) (s : store) :
  let started := (chat_with_ai w update s).1 in
  let stopped := (stop_chat w update s).1 in
  user_data started = <["chat_history" := []]> (user_data s)
  /\ user_data started !! "chat_history" = Some []
  /\ user_data stopped = delete "chat_history" (user_data s)
  /\ user_data stopped !! "chat_history" = None
  /\ history started = []
  /\ history stopped = []
  /\ forall message : Message.t,
      Update.message update = Some message ->
      telegram_answer w (sent s)
        (ReplyText (VStr "👍 Chat ended. Start again with /chat!")
           (Some ReplyKeyboardRemove) None) = Ok tt ->
      (stop_chat w update s).2 = Ok END.
Proof.
  intros started stopped.
  assert (user_data started = <["chat_history" := []]> (user_data s)) as Hstart.
  { subst started. unfold chat_with_ai, bind, lift, ret, attr, user_data_set, telegram.
    destruct (Update.message update); simpl; [|reflexivity].
    destruct (telegram_answer w _ _); reflexivity. }
  assert (user_data stopped = delete "chat_history" (user_data s)) as Hstop.
  { subst stopped. unfold stop_chat, bind, lift, ret, attr, user_data_discard, telegram.
    destruct (user_data s !! "chat_history") eqn:Hkey; simpl.
    - destruct (Update.message update); simpl; [|reflexivity].
      destruct (telegram_answer w _ _); reflexivity.
    - rewrite delete_id by exact Hkey.
      destruct (Update.message update); simpl; [|reflexivity].
      destruct (telegram_answer w _ _); reflexivity. }
  unfold history. rewrite Hstart, Hstop, lookup_insert_eq, lookup_delete_eq.
  repeat split.
  intros message Hmessage Hreply.
  unfold stop_chat, bind, lift, ret, attr, user_data_discard, telegram.
  rewrite Hmessage.
  destruct (user_data s !! "chat_history"); simpl; now rewrite Hreply.
Qed.

End ConversationHistory.

(** *** The private chat on concrete messages *)

(** Four messages in a fresh private chat: the history keeps three
    exchanges and the first one, "hello" and its answer, is gone. *)
Example private_chat_run :
  let updates := map Examples.private_update ["hello"; "one"; "two"; "three"] in
  Spec.history
    (Bot.process_updates
       (Bot.handle_ai_response Examples.environ Examples.counting_world)
       updates Examples.empty_store)
  = [Bot.mk_turn "user" (Py.VStr "one"); Bot.mk_turn "model" (Py.VInt 4);
     Bot.mk_turn "user" (Py.VStr "two"); Bot.mk_turn "model" (Py.VInt 7);
     Bot.mk_turn "user" (Py.VStr "three"); Bot.mk_turn "model" (Py.VInt 10)].
Proof. vm_compute. reflexivity. Qed.

Example private_chat_first_run :
  Spec.history
    (Bot.handle_ai_response Examples.environ
       (Examples.constant_world (Py.Ok (Examples.reply "Hi!")))
       (Examples.private_update "hello") Examples.empty_store).1
  = [Bot.mk_turn "user" (Py.VStr "hello"); Bot.mk_turn "model" (Py.VStr "Hi!")].
Proof. vm_compute. reflexivity. Qed.

(** When the typing notification fails there is no exchange, and the
    history stays as it was. *)
Example private_chat_typing_failure_run :
  let w := Bot.mk_world (fun _ _ => Py.Ok (Examples.reply "Hi!"))
             (fun _ _ => Py.Raise Py.TelegramError) in
  Spec.exchange_of Examples.environ w (Examples.private_update "hello")
    Examples.empty_store = None
  /\ Spec.history
       (Bot.handle_ai_response Examples.environ w (Examples.private_update "hello")
          Examples.empty_store).1 = [].
Proof. split; vm_compute; reflexivity. Qed.

Lemma private_history_window_witness :
  let updates := map Examples.private_update ["hello"; "one"; "two"; "three"] in
  let w := Examples.counting_world in
  let s := Bot.process_updates (Bot.handle_ai_response Examples.environ w)
             (take 4 updates) Examples.empty_store in
  let made := Spec.exchanges Examples.environ w (take 4 updates) Examples.empty_store in
  Spec.history Examples.empty_store = []
  /\ length made = 4
  /\ length (Spec.history s) = min (2 * length made) 6
  /\ Spec.history s = Spec.last_n 6 (flat_map Spec.pair_turns made)
  /\ Spec.history s = flat_map Spec.pair_turns (Spec.last_n 3 made)
  /\ Spec.paired (Spec.history s) = true
  /\ Spec.begins_with_model (Spec.history s) = false.
Proof.
  intros updates w s made.
  split; [reflexivity|]. split; [vm_compute; reflexivity|].
  apply (private_history_window Examples.environ w updates Examples.empty_store 4).
  reflexivity.
Defined.

Lemma chat_and_stop_reset_witness :
  let w := Examples.constant_world (Py.Raise Py.HTTPError) in
  let update := Examples.private_update "/stop" in
  Bot.user_data Examples.empty_store !! "chat_history" = None
  /\ (Bot.stop_chat w update Examples.empty_store).2 = Py.Ok Bot.END.
Proof.
  intros w update. split; [reflexivity|].
  apply (chat_and_stop_reset w update Examples.empty_store)
    with (message := Bot.Message.mk (Some "/stop") (Some (Bot.User.mk "Ann")) 1).
  - reflexivity.
  - reflexivity.
Defined.

(** ** The group message log and the analysis *)

Section GroupLog.
Import Py Bot Spec.

Variable environ : gmap string string.
Variable lower : string -> string.
Variable w : world.

Lemma slice_last_10 {A : Type} (xs : list A) : slice_from (-10) xs = last_n 10 xs.
Proof. apply (slice_from_neg 10). lia. Qed.

(** One run of [cache_messages]: a text message with a sender adds its
    line and the log is cut to its last ten; anything else leaves the log
    as it reads. *)
Lemma cache_messages_step (update : Update.t) (s : store) :
  group_log (cache_messages update s).1
  = match group_line update with
    | Some line => last_n 10 (group_log s ++ [line])
    | None => group_log s
    end.
Proof.
  unfold cache_messages, group_line, group_log.
  destruct (Update.effective_message update) as [message|]; [|reflexivity].
  destruct (Message.text message) as [text|]; [|reflexivity].
  destruct (String.eqb text ""); [now destruct (Message.from_user message)|].
  unfold bind, lift, attr, chat_data_setdefault, chat_data_set.
  destruct (chat_data s !! "recent_msgs") as [l|] eqn:Hlog;
    destruct (Message.from_user message) as [user|]; simpl;
    rewrite ?Hlog, ?lookup_insert_eq; simpl; try reflexivity;
    apply slice_last_10.
Qed.

Lemma group_log_after_updates (updates : list Update.t) :
  forall (s : store) (previous : list string),
    group_log s = last_n 10 previous ->
    group_log (process_updates cache_messages updates s)
    = last_n 10 (previous ++ omap group_line updates).
Proof.
  induction updates as [|update updates IH]; intros s previous Hs.
  - simpl. now rewrite app_nil_r.
  - unfold process_updates in *. simpl.
    pose proof (cache_messages_step update s) as Hstep.
    destruct (group_line update) as [line|].
    + rewrite (IH _ (previous ++ [line])).
      * now rewrite <- app_assoc.
      * now rewrite Hstep, Hs, last_n_app_last_n.
    + apply IH. now rewrite Hstep.
Qed.

(** A line is the first name of the sender, ": " and the text of its
    message. *)
Lemma group_line_format (update : Update.t) (line : string) :
  group_line update = Some line ->
  exists (message : Message.t) (sender : User.t) (text : string),
    Update.effective_message update = Some message
    /\ Message.from_user message = Some sender
    /\ Message.text message = Some text
    /\ text <> EmptyString
    /\ line = User.first_name sender +:+ ": " +:+ text.
Proof.
  unfold group_line.
  destruct (Update.effective_message update) as [message|]; [|discriminate].
  destruct (Message.text message) as [text|] eqn:Htext; [|discriminate].
  destruct (Message.from_user message) as [sender|] eqn:Hsender; [|discriminate].
  destruct (String.eqb_spec text "") as [|Hne]; [discriminate|].
  intros [= <-]. exists message, sender, text. repeat split; assumption.
Qed.

(** C2: after N group text messages given to [cache_messages], starting
    from an empty log, the log holds min(N, 10) lines, and they are the
    last min(N, 10) lines appended, in the order of their arrival; the
    line of a message is the first name of its sender, ": " and its text. *)
Theorem group_log_window (updates : list Update.t) (s0 : store) :
  group_log s0 = [] ->
  Forall (fun update => is_Some (group_line update)) updates ->
  let s := process_updates cache_messages updates s0 in
  let lines := omap group_line updates in
  let N := length updates in
  length lines = N
  /\ length (group_log s) = min N 10
  /\ group_log s = drop (N - min N 10) lines
  /\ Forall2
       (fun update line =>
          exists (message : Message.t) (sender : User.t) (text : string),
            Update.effective_message update = Some message
            /\ Message.from_user message = Some sender
            /\ Message.text message = Some text
            /\ line = User.first_name sender +:+ ": " +:+ text)
       updates lines.
Proof.
  intros H0 Htext s lines N.
  assert (Forall2
            (fun update line =>
               exists (message : Message.t) (sender : User.t) (text : string),
                 Update.effective_message update = Some message
                 /\ Message.from_user message = Some sender
                 /\ Message.text message = Some text
                 /\ line = User.first_name sender +:+ ": " +:+ text)
            updates lines) as Hformat.
  { subst lines. clear s N H0.
    induction Htext as [|u us [line Hu] _ IH]; [constructor|].
    change (omap group_line (u :: us))
      with (match group_line u with
            | Some y => y :: omap group_line us
            | None => omap group_line us
            end).
    rewrite Hu. constructor; [|exact IH].
    destruct (group_line_format u line Hu)
      as (message & sender & text & H1 & H2 & H3 & _ & H4).
    exists message, sender, text. repeat split; assumption. }
  cut (length lines = N
       /\ length (group_log s) = min N 10
       /\ group_log s = drop (N - min N 10) lines).
  { intros (H1 & H2 & H3). repeat split; assumption. }
  clear Hformat.
  assert (length lines = N) as Hlen.
  { subst lines N. induction Htext as [|u us [line Hu] _ IH]; [reflexivity|].
    change (omap group_line (u :: us))
      with (match group_line u with
            | Some y => y :: omap group_line us
            | None => omap group_line us
            end).
    rewrite Hu. simpl. now f_equal. }
  assert (group_log s = last_n 10 lines) as Hs.
  { subst s lines. now rewrite (group_log_after_updates _ s0 []). }
  split; [exact Hlen|]. rewrite Hs. split.
  - rewrite length_last_n. lia.
  - unfold last_n. f_equal. lia.
Qed.

(** C8: the analysis prompt holds the last ten lines joined by newlines
    and the two labels of the answer format, whatever the lines are; the
    call carries this prompt as its only message. *)
Theorem analysis_prompt_shape (messages : list string) (s : store) :
  let lines := join nl (last_n 10 messages) in
  let prompt := analysis_prompt messages in
  str_in lines prompt = true
  /\ str_in "Summary:" prompt = true
  /\ str_in "Suggestion:" prompt = true
  /\ analyze_conversation environ w messages s
     = generate_gemini_response environ w (VStr prompt) None s
  /\ exists request : Request.t,
      sent (analyze_conversation environ w messages s).1 = sent s ++ [Post request]
      /\ Request.json request
         = VDict [("contents",
                   VList [provider_message (mk_turn "user" (VStr prompt))]);
                  ("generationConfig",
                   VDict [("temperature", VFloat 0.7%float);
                          ("maxOutputTokens", VInt 500)])].
Proof.
  intros lines prompt.
  pose (template :=
          "You are an unbiased, emotionally intelligent AI mediator. "
          +:+ "Given these group messages, provide:" +:+ nl
          +:+ "1. A short, neutral summary" +:+ nl
          +:+ "2. An unbiased suggestion" +:+ nl
          +:+ "Format strictly as:" +:+ nl
          +:+ "Summary: <summary>" +:+ nl
          +:+ "Suggestion: <suggestion>" +:+ nl
          +:+ "Messages:" +:+ nl).
  assert (prompt = template +:+ lines) as Hprompt.
  { subst prompt lines template. unfold analysis_prompt.
    rewrite slice_last_10. reflexivity. }
  split; [|split; [|split; [|split]]].
  - rewrite Hprompt. apply str_in_suffix.
  - rewrite Hprompt. apply str_in_append_l. reflexivity.
  - rewrite Hprompt. apply str_in_append_l. reflexivity.
  - reflexivity.
  - unfold analyze_conversation. fold prompt.
    exists (request_for environ (VStr prompt) None).
    rewrite generate_run. split; [reflexivity|].
    apply (request_json_roles environ (VStr prompt) None). constructor.
Qed.

(** C10: a mention that gets past the guards and the typing notification
    puts its own line (the first name of the sender, ": " and the text) in
    the log, cut to the last ten, and the prompt that goes out is the
    analysis of that log, with the line as its last. *)
Theorem mention_analysis_uses_updated_log
    (update : Update.t) (s : store)
    (message : Message.t) (text : string) (chat : Chat.t) (user : User.t) :
  Update.effective_message update = Some message ->
  Message.text message = Some text ->
  text <> EmptyString ->
  Update.effective_chat update = Some chat ->
  str_in ("@" +:+ BOT_USERNAME environ lower) (lower text) = true ->
  telegram_answer w (sent s) (SendChatAction (Chat.id chat) "typing") = Ok tt ->
  Message.from_user message = Some user ->
  let line := User.first_name user +:+ ": " +:+ text in
  let s' := (handle_group_mention environ lower w update s).1 in
  group_log s' = last_n 10 (group_log s ++ [line])
  /\ last (group_log s') = Some line
  /\ (exists rest : list effect,
        sent s'
        = sent s
          ++ [SendChatAction (Chat.id chat) "typing";
              Post (request_for environ (VStr (analysis_prompt (group_log s'))) None)]
          ++ rest)
  /\ (exists head : string,
        analysis_prompt (group_log s') = head +:+ join nl (group_log s')
        /\ exists head' : string, join nl (group_log s') = head' +:+ line)
  /\ str_in line (analysis_prompt (group_log s')) = true.
Proof.
  intros Hmessage Htext Hnonempty Hchat Hmention Htyping Huser line s'.
  assert (String.eqb text "" = false) as Hne by now apply String.eqb_neq.
  assert (chat_data s' = <["recent_msgs" := last_n 10 (group_log s ++ [line])]> (chat_data s)
          /\ exists rest,
              sent s'
              = sent s
                ++ [SendChatAction (Chat.id chat) "typing";
                    Post (request_for environ
                            (VStr (analysis_prompt (group_log s ++ [line]))) None)]
                ++ rest) as [Hdata Hsent].
  { subst s'. unfold handle_group_mention, mention_guard, try_except.
    rewrite Hmessage, Htext, Hne, Hchat, Hmention. simpl.
    unfold bind, telegram at 1. simpl. rewrite Htyping. simpl. rewrite Huser. simpl.
    unfold analyze_conversation. rewrite generate_run. simpl.
    rewrite slice_last_10. unfold message_line. fold line. fold (group_log s).
    unfold telegram. simpl.
    destruct (telegram_answer w _ (ReplyText _ _ (Some _))) as [[]|e]; simpl;
      try destruct (telegram_answer w _ _); simpl;
      (split; [reflexivity|]); eexists; rewrite <- !app_assoc; reflexivity. }
  assert (group_log s' = last_n 10 (group_log s ++ [line])) as Hlog.
  { unfold group_log at 1. now rewrite Hdata, lookup_insert_eq. }
  assert (analysis_prompt (group_log s') = analysis_prompt (group_log s ++ [line]))
    as Hprompt.
  { unfold analysis_prompt. now rewrite Hlog, !slice_last_10, last_n_idem. }
  assert (exists head' : string, join nl (group_log s') = head' +:+ line) as Hjoin.
  { rewrite Hlog. unfold last_n. rewrite length_app. simpl.
    rewrite drop_app_le by lia. apply join_snoc. }
  assert (exists head : string,
             analysis_prompt (group_log s') = head +:+ join nl (group_log s'))
    as Hhead.
  { eexists. unfold analysis_prompt. rewrite slice_last_10, Hlog, last_n_idem.
    rewrite <- Hlog. rewrite <- !append_assoc. reflexivity. }
  split; [exact Hlog|]. split; [|split; [|split]].
  - rewrite Hlog. apply last_n_app_one. lia.
  - rewrite Hprompt. exact Hsent.
  - destruct Hhead as [head Hhead]. exists head. split; [exact Hhead | exact Hjoin].
  - destruct Hhead as [head ->]. destruct Hjoin as [head' ->].
    rewrite <- append_assoc. apply str_in_suffix.
Qed.

End GroupLog.

(** *** The group chat on concrete messages *)

Example analysis_prompt_run :
  Py.str_in ("A: hi" +:+ Bot.nl +:+ "B: yo") (Bot.analysis_prompt ["A: hi"; "B: yo"]) = true
  /\ Py.str_in "Summary:" (Bot.analysis_prompt ["A: hi"; "B: yo"]) = true
  /\ Py.str_in "Suggestion:" (Bot.analysis_prompt ["A: hi"; "B: yo"]) = true.
Proof. repeat split; vm_compute; reflexivity. Qed.

Example group_log_run :
  Spec.group_log
    (Bot.process_updates Bot.cache_messages
       (map (Examples.group_update "Ann")
          ["m1"; "m2"; "m3"; "m4"; "m5"; "m6"; "m7"; "m8"; "m9"; "m10"; "m11"; "m12"])
       Examples.empty_store)
  = ["Ann: m3"; "Ann: m4"; "Ann: m5"; "Ann: m6"; "Ann: m7"; "Ann: m8"; "Ann: m9";
     "Ann: m10"; "Ann: m11"; "Ann: m12"].
Proof. vm_compute. reflexivity. Qed.

Example group_mention_run :
  let s := Bot.mk_store ∅ {["recent_msgs" := ["Ann: hi"; "Bob: yo"]]} [] in
  let update := Examples.group_update "Cy" "@GenZ_Mediator_Bot who is right?" in
  let s' := (Bot.handle_group_mention Examples.environ Examples.lower
               (Examples.constant_world (Py.Ok (Examples.reply "Summary: ...")))
               update s).1 in
  Spec.group_log s' = ["Ann: hi"; "Bob: yo"; "Cy: @GenZ_Mediator_Bot who is right?"]
  /\ last (Bot.sent s') = Some (Bot.ReplyText (Py.VStr "Summary: ...") None (Some 1%Z)).
Proof. split; vm_compute; reflexivity. Qed.

Lemma group_log_window_witness :
  let updates :=
    map (Examples.group_update "Ann")
      ["m1"; "m2"; "m3"; "m4"; "m5"; "m6"; "m7"; "m8"; "m9"; "m10"; "m11"; "m12"] in
  let s := Bot.process_updates Bot.cache_messages updates Examples.empty_store in
  let lines := omap Spec.group_line updates in
  Spec.group_log Examples.empty_store = []
  /\ Forall (fun update => is_Some (Spec.group_line update)) updates
  /\ Spec.group_log s
     = ["Ann: m3"; "Ann: m4"; "Ann: m5"; "Ann: m6"; "Ann: m7"; "Ann: m8"; "Ann: m9";
        "Ann: m10"; "Ann: m11"; "Ann: m12"]
  /\ length lines = 12
  /\ length (Spec.group_log s) = min 12 10
  /\ Spec.group_log s = drop (12 - min 12 10) lines
  /\ Forall2
       (fun update line =>
          exists (message : Bot.Message.t) (sender : Bot.User.t) (text : string),
            Bot.Update.effective_message update = Some message
            /\ Bot.Message.from_user message = Some sender
            /\ Bot.Message.text message = Some text
            /\ line = Bot.User.first_name sender +:+ ": " +:+ text)
       updates lines.
Proof.
  intros updates s lines.
  assert (Forall (fun update => is_Some (Spec.group_line update)) updates) as Htext.
  { subst updates. simpl. repeat (constructor; [eexists; reflexivity|]). constructor. }
  split; [reflexivity|]. split; [exact Htext|]. split; [vm_compute; reflexivity|].
  apply (group_log_window updates Examples.empty_store); [reflexivity | exact Htext].
Defined.

Lemma mention_analysis_uses_updated_log_witness :
  let s := Bot.mk_store ∅ {["recent_msgs" := ["Ann: hi"; "Bob: yo"]]} [] in
  let text := "@GenZ_Mediator_Bot who is right?" in
  let update := Examples.group_update "Cy" text in
  let w := Examples.constant_world (Py.Ok (Examples.reply "Summary: ...")) in
  let s' := (Bot.handle_group_mention Examples.environ Examples.lower w update s).1 in
  Py.str_in ("@" +:+ Bot.BOT_USERNAME Examples.environ Examples.lower)
    (Examples.lower text) = true
  /\ Spec.group_log s'
     = ["Ann: hi"; "Bob: yo"; "Cy: @GenZ_Mediator_Bot who is right?"]
  /\ Spec.group_log s'
     = Spec.last_n 10
         (Spec.group_log s ++ ["Cy: @GenZ_Mediator_Bot who is right?"])
  /\ last (Spec.group_log s') = Some "Cy: @GenZ_Mediator_Bot who is right?"
  /\ Py.str_in "Cy: @GenZ_Mediator_Bot who is right?"
       (Bot.analysis_prompt (Spec.group_log s')) = true.
Proof.
  intros s text update w s'.
  split; [vm_compute; reflexivity|]. split; [vm_compute; reflexivity|].
  pose proof (mention_analysis_uses_updated_log Examples.environ Examples.lower w
                update s
                (Bot.Message.mk (Some text) (Some (Bot.User.mk "Cy")) 1)
                text (Bot.Chat.mk (-100)) (Bot.User.mk "Cy")) as H.
  destruct H as (Hlog & Hlast & _ & _ & Hin).
  - reflexivity.
  - reflexivity.
  - discriminate.
  - reflexivity.
  - vm_compute. reflexivity.
  - reflexivity.
  - reflexivity.
  - split; [exact Hlog|]. split; [exact Hlast | exact Hin].
Defined.

(** ** More on the generation client *)

Section GenerationClientMore.
Import Py Bot Spec Rest.

Variable environ : gmap string string.
Variable w : world.

(** The walk of line 76 succeeds on a list whose first entry has a text,
    and on nothing else. *)
Lemma first_candidate_text_ok (candidates text : value) :
  first_candidate_text candidates = Ok text <->
  exists (candidate : value) (others : list value),
    candidates = VList (candidate :: others) /\ candidate_text candidate = Some text.
Proof.
  split.
  - unfold first_candidate_text, candidate_text.
    destruct candidates as [| | | |s|xs|kvs]; simpl; try discriminate.
    + destruct (seq_index (code_points s) 0); discriminate.
    + destruct xs as [|candidate others]; [discriminate|].
      unfold seq_index. simpl. intros H. exists candidate, others.
      split; [reflexivity|].
      destruct candidate as [| | | | | |c]; try discriminate. simpl in *.
      destruct (dict_get "content" c) as [[| | | | | |c']|]; try discriminate.
      simpl in *.
      destruct (dict_get "parts" c') as [[| | | |s|ps|kvs]|]; simpl in *;
        try discriminate.
      * destruct (seq_index (code_points s) 0); discriminate.
      * destruct ps as [|p ps]; [discriminate|]. unfold seq_index in H. simpl in H.
        destruct p as [| | | | | |part]; try discriminate. simpl in H.
        destruct (dict_get "text" part); [congruence | discriminate].
  - intros (candidate & others & -> & H). now apply first_candidate_text_shape.
Qed.

(** [k in xs] is false on a list that does not hold the string [k]. *)
Lemma not_in_list (k : string) (xs : list value) :
  ~ In (VStr k) xs ->
  existsb (fun x => match x with
                    | VStr s => String.eqb s k
                    | _ => false
                    end) xs = false.
Proof.
  induction xs as [|x xs IH]; intros Hnotin; [reflexivity|]. simpl.
  rewrite IH by (intros Hin; apply Hnotin; now right).
  destruct x; simpl; try reflexivity.
  destruct (String.eqb_spec s k) as [->|]; [|reflexivity].
  exfalso. apply Hnotin. now left.
Qed.

(** X1: whatever the client returns is the error report of a status other
    than 200, the placeholder, the apology, or the text of the first
    candidate of a 200 answer. *)
Theorem generate_outcomes
    (prompt : value) (chat_history : option (list turn)) (s : store) :
  exists v : value,
    (generate_gemini_response environ w prompt chat_history s).2 = Ok v
    /\ ((exists response : Response.t,
            http_answer w (sent s) (request_for environ prompt chat_history) = Ok response
            /\ Response.status_code response <> 200%Z
            /\ v = VStr ("⚠️ API Error (Status: "
                         +:+ str_int (Response.status_code response)
                         +:+ "): " +:+ Response.text response))
         \/ v = VStr "Sorry, I couldn't generate a response."
         \/ v = VStr "⚠️ Sorry, I encountered an error. Please try again later."
         \/ (exists (response : Response.t) (body : list (string * value))
                    (candidate : value) (others : list value),
                http_answer w (sent s) (request_for environ prompt chat_history)
                = Ok response
                /\ Response.status_code response = 200%Z
                /\ Response.json response = Ok (VDict body)
                /\ dict_get "candidates" body = Some (VList (candidate :: others))
                /\ candidate_text candidate = Some v)).
Proof.
  eexists. rewrite generate_run. split; [reflexivity|].
  destruct (http_answer w (sent s) _) as [response|e] eqn:Hpost; [|now right; right; left].
  unfold classify_response.
  destruct (Z.eqb_spec (Response.status_code response) 200) as [Hstatus|Hstatus].
  - destruct (Response.json response) as [body|e] eqn:Hjson; [|now right; right; left].
    destruct (contains_str "candidates" body) as [[|]|e] eqn:Hin;
      [| now right; left | now right; right; left].
    destruct (getitem_key body "candidates") as [candidates|e] eqn:Hget;
      [|now right; right; left].
    destruct (truthy candidates); [|now right; left].
    destruct (first_candidate_text candidates) as [text|e] eqn:Htext;
      [|now right; right; left].
    right; right; right.
    apply first_candidate_text_ok in Htext as (candidate & others & -> & Htext).
    destruct body as [| | | | | |kvs]; try discriminate. simpl in Hget.
    destruct (dict_get "candidates" kvs) as [c|] eqn:Hc; [|discriminate].
    injection Hget as ->.
    exists response, kvs, candidate, others. repeat split; assumption.
  - left. exists response. repeat split. exact Hstatus.
Qed.

(** X2: a 200 answer whose [candidates] entry is there but falsy (null, 0,
    false, an empty string, list or object) gives the placeholder. *)
Theorem generate_falsy_candidates
    (prompt : value) (chat_history : option (list turn)) (s : store)
    (response : Response.t) (body : list (string * value)) (candidates : value) :
  http_answer w (sent s) (request_for environ prompt chat_history) = Ok response ->
  Response.status_code response = 200%Z ->
  Response.json response = Ok (VDict body) ->
  dict_get "candidates" body = Some candidates ->
  truthy candidates = false ->
  (generate_gemini_response environ w prompt chat_history s).2
  = Ok (VStr "Sorry, I couldn't generate a response.").
Proof.
  intros Hpost Hstatus Hjson Hget Hfalsy.
  rewrite generate_run, Hpost. unfold classify_response.
  rewrite Hstatus, Hjson. simpl. rewrite Hget. simpl. now rewrite Hfalsy.
Qed.

(** X3: a 200 answer with candidates whose first one has no text at
    [content.parts[0].text] gives the apology, not the placeholder. *)
Theorem generate_candidate_without_text
    (prompt : value) (chat_history : option (list turn)) (s : store)
    (response : Response.t) (body : list (string * value))
    (candidate : value) (others : list value) :
  http_answer w (sent s) (request_for environ prompt chat_history) = Ok response ->
  Response.status_code response = 200%Z ->
  Response.json response = Ok (VDict body) ->
  dict_get "candidates" body = Some (VList (candidate :: others)) ->
  candidate_text candidate = None ->
  (generate_gemini_response environ w prompt chat_history s).2
  = Ok (VStr "⚠️ Sorry, I encountered an error. Please try again later.").
Proof.
  intros Hpost Hstatus Hjson Hget Hnone.
  rewrite generate_run, Hpost. unfold classify_response.
  rewrite Hstatus, Hjson. simpl. rewrite Hget. simpl.
  destruct (first_candidate_text (VList (candidate :: others))) as [text|e] eqn:Htext;
    [|reflexivity].
  apply first_candidate_text_ok in Htext as (c & cs & Heq & Htext).
  injection Heq as <- <-. congruence.
Qed.

(** X4: a 200 answer whose body is not an object gives the apology when it
    is null, a boolean or a number, and the placeholder when it is a list
    that does not hold the string "candidates". *)
Theorem generate_non_object_body
    (prompt : value) (chat_history : option (list turn)) (s : store)
    (response : Response.t) (body : value) :
  http_answer w (sent s) (request_for environ prompt chat_history) = Ok response ->
  Response.status_code response = 200%Z ->
  Response.json response = Ok body ->
  (scalar body = true ->
   (generate_gemini_response environ w prompt chat_history s).2
   = Ok (VStr "⚠️ Sorry, I encountered an error. Please try again later."))
  /\ (forall xs : list value,
        body = VList xs -> ~ In (VStr "candidates") xs ->
        (generate_gemini_response environ w prompt chat_history s).2
        = Ok (VStr "Sorry, I couldn't generate a response.")).
Proof.
  intros Hpost Hstatus Hjson.
  rewrite generate_run, Hpost. unfold classify_response. rewrite Hstatus, Hjson.
  simpl. split.
  - destruct body; simpl; try discriminate; reflexivity.
  - intros xs -> Hnotin. simpl. now rewrite (not_in_list "candidates" xs Hnotin).
Qed.

(** X5: one call of the client is one request, whatever comes back: the
    stores are not touched, nothing is sent twice, and the request has the
    fixed address with the key, the fixed header and the fixed timeout. *)
Theorem generate_single_request
    (prompt : value) (chat_history : option (list turn)) (s : store) :
  let s' := (generate_gemini_response environ w prompt chat_history s).1 in
  let request := request_for environ prompt chat_history in
  user_data s' = user_data s
  /\ chat_data s' = chat_data s
  /\ sent s' = sent s ++ [Post request]
  /\ posts (sent s') = posts (sent s) ++ [request]
  /\ Request.url request
     = GEMINI_API_URL +:+ "?key=" +:+ default "None" (environ !! "GEMINI_API_KEY")
  /\ Request.headers request = [("Content-Type", "application/json")]
  /\ Request.timeout request = 30%float.
Proof.
  intros s' request. subst s'. rewrite generate_run. simpl.
  repeat split. unfold posts. now rewrite omap_app.
Qed.

(** X6: a Turn whose role is anything but "user" goes out as a model
    message; the contents keep the order and the length of the history. *)
Theorem generate_request_roles
    (prompt : value) (chat_history : list turn) :
  Request.json (request_for environ prompt (Some chat_history))
  = VDict [("contents",
            VList (map (fun t =>
                          VDict [("role",
                                  VStr (if String.eqb (role t) "user"
                                        then "user" else "model"));
                                 ("parts", VList [VDict [("text", content t)]])])
                       chat_history
                   ++ [VDict [("role", VStr "user");
                              ("parts", VList [VDict [("text", prompt)]])]]));
           ("generationConfig",
            VDict [("temperature", VFloat 0.7%float);
                   ("maxOutputTokens", VInt 500)])].
Proof.
  unfold request_for, build_request, build_data. simpl.
  now rewrite build_contents_map.
Qed.

End GenerationClientMore.

(** ** More on the private conversation *)

Section ConversationMore.
Import Py Bot Spec Rest.

Variable environ : gmap string string.
Variable w : world.

Lemma chat_with_ai_user_data (update : Update.t) (s : store) :
  user_data (chat_with_ai w update s).1 = <["chat_history" := []]> (user_data s).
Proof.
  unfold chat_with_ai, bind, lift, ret, attr, user_data_set, telegram.
  destruct (Update.message update); simpl; [|reflexivity].
  destruct (telegram_answer w _ _); reflexivity.
Qed.

Lemma stop_chat_user_data (update : Update.t) (s : store) :
  user_data (stop_chat w update s).1 = delete "chat_history" (user_data s).
Proof.
  unfold stop_chat, bind, lift, ret, attr, user_data_discard, telegram.
  destruct (user_data s !! "chat_history") eqn:Hkey; simpl.
  - destruct (Update.message update); simpl; [|reflexivity].
    destruct (telegram_answer w _ _); reflexivity.
  - rewrite delete_id by exact Hkey.
    destruct (Update.message update); simpl; [|reflexivity].
    destruct (telegram_answer w _ _); reflexivity.
Qed.

(** Paired Turns are the Turns of the exchanges read off them. *)
Lemma paired_exchanges (h : list turn) :
  paired h = true -> h = flat_map pair_turns (exchanges_of_turns h).
Proof.
  enough (forall n h, length h <= n -> paired h = true ->
                      h = flat_map pair_turns (exchanges_of_turns h)) as H
    by (apply (H (length h)); lia).
  clear h. induction n as [|n IH]; intros h Hn Hp.
  - destruct h; [reflexivity | simpl in Hn; lia].
  - destruct h as [|[ru cu] [|[rm cm] h']]; [reflexivity | discriminate |].
    simpl in Hp. apply andb_true_iff in Hp as [Hp Hp'].
    apply andb_true_iff in Hp as [Hu Hm].
    apply String.eqb_eq in Hu, Hm. simpl in Hu, Hm. subst ru rm.
    simpl. unfold pair_turns at 1. simpl. do 2 f_equal.
    apply IH; [simpl in Hn; lia | exact Hp'].
Qed.

Lemma last_n_all {A : Type} (n : nat) (xs : list A) :
  length xs <= n -> last_n n xs = xs.
Proof.
  intros H. unfold last_n. now replace (length xs - n) with 0 by lia.
Qed.

(** The whole run of the handler when the exchange takes place. *)
Lemma handle_ai_response_exchange
    (update : Update.t) (s : store) (message : Message.t) (chat : Chat.t) :
  Update.message update = Some message ->
  Update.effective_chat update = Some chat ->
  telegram_answer w (sent s) (SendChatAction (Chat.id chat) "typing") = Ok tt ->
  let user_message := of_optional (Message.text message) in
  let request := request_for environ user_message (Some (history s)) in
  let s1 := mk_store (user_data s) (chat_data s)
              (sent s ++ [SendChatAction (Chat.id chat) "typing"]) in
  exists response : value,
    (generate_gemini_response environ w user_message (Some (history s)) s1).2
    = Ok response
    /\ exchange_of environ w update s = Some (user_message, response)
    /\ user_data (handle_ai_response environ w update s).1
       = <["chat_history" :=
             last_n 6 (history s ++ [mk_turn "user" user_message;
                                     mk_turn "model" response])]> (user_data s)
    /\ exists rest : list effect,
        sent (handle_ai_response environ w update s).1
        = sent s ++ [SendChatAction (Chat.id chat) "typing"; Post request;
                     ReplyText response None None] ++ rest
        /\ (rest = []
            \/ rest = [ReplyText (VStr "⚠️ An error occurred. Please try again.")
                         None None]).
Proof.
  intros Hmessage Hchat Htyping user_message request s1.
  eexists. split; [subst s1; rewrite generate_run; reflexivity|].
  unfold exchange_of, handle_ai_response, try_except, bind, lift, ret, attr.
  rewrite Hmessage, Hchat. simpl. rewrite Htyping. simpl.
  unfold history at 1. simpl. rewrite generate_run. simpl.
  fold (history s). fold user_message. fold request.
  split; [reflexivity|].
  destruct (telegram_answer w _ (ReplyText _ _ _)) as [[]|e]; simpl.
  - rewrite slice_last_6, <- !app_assoc. split; [reflexivity|].
    exists []. split; [reflexivity | now left].
  - rewrite slice_last_6, <- !app_assoc.
    destruct (telegram_answer w _
                (ReplyText (VStr "⚠️ An error occurred. Please try again.") None None));
      simpl; (split; [reflexivity|]); eexists; (split; [reflexivity | now right]).
Qed.

(** X7: in an exchange the request carries the history as it was before,
    the user gets the very answer the client generated for it, the same
    that is stored as the model Turn, and nothing else is sent when that
    reply is accepted; when it fails, the fallback reply follows and its
    outcome decides the result. *)
Theorem exchange_trace
    (update : Update.t) (s : store) (message : Message.t) (chat : Chat.t) :
  Update.message update = Some message ->
  Update.effective_chat update = Some chat ->
  telegram_answer w (sent s) (SendChatAction (Chat.id chat) "typing") = Ok tt ->
  let user_message := of_optional (Message.text message) in
  let request := request_for environ user_message (Some (history s)) in
  let s1 := mk_store (user_data s) (chat_data s)
              (sent s ++ [SendChatAction (Chat.id chat) "typing"]) in
  let r := handle_ai_response environ w update s in
  let sorry := ReplyText (VStr "⚠️ An error occurred. Please try again.") None None in
  exists response : value,
    (generate_gemini_response environ w user_message (Some (history s)) s1).2
    = Ok response
    /\ history r.1
       = last_n 6 (history s ++ [mk_turn "user" user_message;
                                 mk_turn "model" response])
    /\ last (history r.1) = Some (mk_turn "model" response)
    /\ let calls := sent s ++ [SendChatAction (Chat.id chat) "typing"; Post request] in
       let reply := ReplyText response None None in
       match telegram_answer w calls reply with
       | Ok _ => sent r.1 = calls ++ [reply] /\ r.2 = Ok CHATTING
       | Raise _ =>
           sent r.1 = calls ++ [reply; sorry]
           /\ r.2 = match telegram_answer w (calls ++ [reply]) sorry with
                    | Ok _ => Ok CHATTING
                    | Raise e => Raise e
                    end
       end.
Proof.
  intros Hmessage Hchat Htyping user_message request s1 r sorry.
  destruct (handle_ai_response_exchange update s message chat Hmessage Hchat Htyping)
    as (response & Hgen & _ & Hdata & _).
  exists response. split; [exact Hgen|].
  assert (history r.1
          = last_n 6 (history s ++ [mk_turn "user" user_message;
                                    mk_turn "model" response])) as Hh.
  { subst r. unfold history at 1. now rewrite Hdata, lookup_insert_eq. }
  split; [exact Hh|]. split.
  { rewrite Hh.
    change [mk_turn "user" user_message; mk_turn "model" response]
      with ([mk_turn "user" user_message] ++ [mk_turn "model" response]).
    rewrite app_assoc. apply last_n_app_one. lia. }
  clear Hdata Hh. rewrite generate_run in Hgen. simpl in Hgen.
  fold user_message in Hgen. fold request in Hgen. injection Hgen as <-.
  subst r sorry. unfold handle_ai_response, try_except, bind, lift, ret, attr.
  rewrite Hmessage, Hchat. simpl. rewrite Htyping. simpl.
  rewrite generate_run. simpl.
  fold (history s). fold user_message. fold request. rewrite <- !app_assoc. simpl.
  destruct (telegram_answer w (sent s ++ [_; Post request]) (ReplyText _ None None))
    as [[]|e]; simpl.
  - rewrite <- ?app_assoc. split; reflexivity.
  - rewrite <- ?app_assoc. simpl.
    destruct (telegram_answer w _ (ReplyText (VStr _) None None)) as [[]|e']; simpl;
      rewrite <- ?app_assoc; split; reflexivity.
Qed.

(** X8: a history that is paired and has at most six Turns stays so along
    every run of the handler, and is the last six Turns of what it was
    followed by the exchanges made. *)
Theorem history_invariant (updates : list Update.t) (s : store) :
  paired (history s) = true ->
  length (history s) <= 6 ->
  let s' := process_updates (handle_ai_response environ w) updates s in
  paired (history s') = true
  /\ length (history s') <= 6
  /\ history s'
     = last_n 6 (history s ++ flat_map pair_turns (exchanges environ w updates s)).
Proof.
  intros Hp Hlen s'.
  pose proof (paired_exchanges _ Hp) as Hh.
  assert (history s'
          = last_n 6 (flat_map pair_turns
                        (exchanges_of_turns (history s)
                         ++ exchanges environ w updates s))) as Hs'.
  { subst s'. apply history_after_updates.
    rewrite <- Hh. symmetry. now apply last_n_all. }
  split; [|split].
  - rewrite Hs', last_6_pairs. apply paired_pairs.
  - rewrite Hs', length_last_n. lia.
  - rewrite Hs', flat_map_app, <- Hh. reflexivity.
Qed.

(** X9: the handler never ends the conversation, and it fails only in two
    ways: at once and without a trace when the update has no message, or
    after it has tried to tell the user that an error occurred. *)
Theorem handle_ai_response_result (update : Update.t) (s : store) :
  match (handle_ai_response environ w update s).2 with
  | Ok state => state = CHATTING
  | Raise e =>
      (Update.message update = None /\ e = AttributeError
       /\ (handle_ai_response environ w update s).1 = s)
      \/ last (sent (handle_ai_response environ w update s).1)
         = Some (ReplyText (VStr "⚠️ An error occurred. Please try again.")
                   None None)
  end.
Proof.
  unfold handle_ai_response, try_except, bind, lift, ret, attr.
  destruct (Update.message update) as [message|]; simpl; [|now left].
  destruct (Update.effective_chat update) as [chat|]; simpl.
  - destruct (telegram_answer w (sent s) _) as [[]|e]; simpl.
    + rewrite generate_run. simpl.
      destruct (telegram_answer w _ (ReplyText _ _ _)) as [[]|e]; simpl;
        [reflexivity|].
      destruct (telegram_answer w _ _) as [[]|e']; simpl; [reflexivity|].
      right. apply last_snoc.
    + destruct (telegram_answer w _ _) as [[]|e']; simpl; [reflexivity|].
      right. apply last_snoc.
  - destruct (telegram_answer w _ _) as [[]|e']; simpl; [reflexivity|].
    right. apply last_snoc.
Qed.

(** X10: the first exchange after /chat sends the prompt alone, whatever
    the history was before /chat, and leaves exactly one pair of Turns. *)
Theorem first_exchange_after_chat
    (command update : Update.t) (s : store) (message : Message.t) (chat : Chat.t) :
  let s1 := (chat_with_ai w command s).1 in
  Update.message update = Some message ->
  Update.effective_chat update = Some chat ->
  telegram_answer w (sent s1) (SendChatAction (Chat.id chat) "typing") = Ok tt ->
  let user_message := of_optional (Message.text message) in
  let s2 := (handle_ai_response environ w update s1).1 in
  exists (response : value) (request : Request.t) (rest : list effect),
    sent s2
    = sent s1 ++ [SendChatAction (Chat.id chat) "typing"; Post request;
                  ReplyText response None None] ++ rest
    /\ Request.json request
       = VDict [("contents", VList [provider_message (mk_turn "user" user_message)]);
                ("generationConfig",
                 VDict [("temperature", VFloat 0.7%float);
                        ("maxOutputTokens", VInt 500)])]
    /\ history s2 = [mk_turn "user" user_message; mk_turn "model" response].
Proof.
  intros s1 Hmessage Hchat Htyping user_message s2.
  assert (history s1 = []) as Hempty.
  { subst s1. unfold history. now rewrite chat_with_ai_user_data, lookup_insert_eq. }
  destruct (handle_ai_response_exchange update s1 message chat Hmessage Hchat Htyping)
    as (response & _ & _ & Hdata & rest & Hsent & _).
  rewrite Hempty in Hdata, Hsent.
  exists response, (request_for environ user_message (Some [])), rest.
  split; [exact Hsent|]. split.
  - apply (request_json_roles environ user_message (Some [])). constructor.
  - subst s2. unfold history at 1. now rewrite Hdata, lookup_insert_eq.
Qed.

End ConversationMore.

(** ** More on the group log, and the rest of the program *)

Section GroupMore.
Import Py Bot Spec Rest.

Variable environ : gmap string string.
Variable lower : string -> string.
Variable w : world.

(** What [handle_group_mention] does to the chat store, in every case. *)
Lemma handle_group_mention_chat_data (update : Update.t) (s : store) :
  chat_data (handle_group_mention environ lower w update s).1
  = match appended_line environ lower w (Mentioned update) s with
    | Some line => <["recent_msgs" := last_n 10 (group_log s ++ [line])]> (chat_data s)
    | None => chat_data s
    end.
Proof.
  unfold handle_group_mention, appended_line, try_except.
  destruct (mention_guard environ lower update) as [[[message text] chat]|] eqn:Hguard;
    [|reflexivity].
  unfold bind, lift, ret, attr, chat_data_get, chat_data_set, analyze_conversation.
  unfold telegram at 1. simpl.
  destruct (telegram_answer w (sent s) _) as [[]|e]; simpl.
  - destruct (Message.from_user message) as [user|]; simpl.
    + rewrite generate_run. simpl. rewrite slice_last_10. fold (group_log s).
      unfold telegram. simpl.
      destruct (telegram_answer w _ (ReplyText _ _ (Some _))) as [[]|e]; simpl;
        [reflexivity|].
      now destruct (Update.effective_message update).
    + now destruct (Update.effective_message update).
  - now destruct (Update.effective_message update).
Qed.

Lemma handle_group_event_log (event : group_event) (s : store) :
  group_log (handle_group_event environ lower w event s).1
  = match appended_line environ lower w event s with
    | Some line => last_n 10 (group_log s ++ [line])
    | None => group_log s
    end.
Proof.
  destruct event as [update|update].
  - apply cache_messages_step.
  - unfold group_log at 1. simpl (handle_group_event _ _ _ _ _).
    rewrite handle_group_mention_chat_data.
    destruct (appended_line environ lower w (Mentioned update) s); [|reflexivity].
    now rewrite lookup_insert_eq.
Qed.

Lemma group_log_after_events (events : list group_event) :
  forall (s : store) (previous : list string),
    group_log s = last_n 10 previous ->
    group_log (process_events environ lower w events s)
    = last_n 10 (previous ++ appended_lines environ lower w events s).
Proof.
  induction events as [|event events IH]; intros s previous Hs.
  - simpl. now rewrite app_nil_r.
  - unfold process_events in *. simpl.
    pose proof (handle_group_event_log event s) as Hstep.
    destruct (appended_line environ lower w event s) as [line|]; simpl.
    + rewrite (IH _ (previous ++ [line])).
      * now rewrite <- app_assoc.
      * now rewrite Hstep, Hs, last_n_app_last_n.
    + apply IH. now rewrite Hstep.
Qed.

(** X11: whichever of the two handlers gets each update, a log of at most
    ten lines becomes the last ten of its lines followed by the lines
    added, and never grows beyond ten. *)
Theorem group_log_mixed_window (events : list group_event) (s : store) :
  length (group_log s) <= 10 ->
  let s' := process_events environ lower w events s in
  group_log s' = last_n 10 (group_log s ++ appended_lines environ lower w events s)
  /\ length (group_log s') <= 10.
Proof.
  intros Hlen s'.
  assert (group_log s'
          = last_n 10 (group_log s ++ appended_lines environ lower w events s)) as H.
  { subst s'. apply group_log_after_events. symmetry. now apply last_n_all. }
  split; [exact H|]. rewrite H, length_last_n. lia.
Qed.

(** X12: [cache_messages] never sends anything and never touches the user
    store; an update without a message, without a text or with an empty
    text leaves everything as it is. *)
Theorem cache_messages_quiet (update : Update.t) (s : store) :
  sent (cache_messages update s).1 = sent s
  /\ user_data (cache_messages update s).1 = user_data s
  /\ ((forall (message : Message.t) (text : string),
          Update.effective_message update = Some message ->
          Message.text message = Some text -> text = EmptyString) ->
      cache_messages update s = (s, Ok tt)).
Proof.
  unfold cache_messages.
  destruct (Update.effective_message update) as [message|] eqn:Hmessage;
    [|now repeat split].
  destruct (Message.text message) as [text|] eqn:Htext; [|now repeat split].
  destruct (String.eqb_spec text "") as [->|Hne]; [now repeat split|].
  unfold bind, lift, ret, attr, chat_data_setdefault, chat_data_set.
  split; [|split].
  - destruct (chat_data s !! "recent_msgs"), (Message.from_user message); reflexivity.
  - destruct (chat_data s !! "recent_msgs"), (Message.from_user message); reflexivity.
  - intros H. exfalso. apply Hne. now apply (H message text).
Qed.

(** X13: a text message without a sender makes [cache_messages] raise
    [AttributeError]; no line is added, but the key of the log is there
    afterwards. *)
Theorem cache_messages_without_sender
    (update : Update.t) (s : store) (message : Message.t) (text : string) :
  Update.effective_message update = Some message ->
  Message.text message = Some text ->
  text <> EmptyString ->
  Message.from_user message = None ->
  (cache_messages update s).2 = Raise AttributeError
  /\ chat_data (cache_messages update s).1 !! "recent_msgs" = Some (group_log s)
  /\ group_log (cache_messages update s).1 = group_log s.
Proof.
  intros Hmessage Htext Hne Huser.
  unfold cache_messages, group_log. rewrite Hmessage, Htext.
  destruct (String.eqb_spec text "") as [|_]; [contradiction|].
  unfold bind, lift, ret, attr, chat_data_setdefault. rewrite Huser.
  destruct (chat_data s !! "recent_msgs") as [l|] eqn:Hlog; simpl;
    rewrite ?Hlog, ?lookup_insert_eq; repeat split.
Qed.

(** X14: a message whose lower-cased text does not hold the handle is
    ignored by [handle_group_mention]: nothing is stored and nothing sent. *)
Theorem mention_not_addressed
    (update : Update.t) (s : store) (message : Message.t) (text : string) :
  Update.effective_message update = Some message ->
  Message.text message = Some text ->
  str_in ("@" +:+ BOT_USERNAME environ lower) (lower text) = false ->
  handle_group_mention environ lower w update s = (s, Ok tt).
Proof.
  intros Hmessage Htext Hnot.
  unfold handle_group_mention, mention_guard, try_except.
  rewrite Hmessage, Htext, Hnot.
  destruct (String.eqb text ""); [reflexivity|].
  destruct (Update.effective_chat update); reflexivity.
Qed.

(** X15: when the typing notification fails, or the mention has no sender,
    the log is left as it is, no request goes out, and the last thing sent
    is the error reply; its outcome is the outcome of the handler. *)
Theorem mention_failure_before_append
    (update : Update.t) (s : store)
    (message : Message.t) (text : string) (chat : Chat.t) :
  Update.effective_message update = Some message ->
  Message.text message = Some text ->
  text <> EmptyString ->
  Update.effective_chat update = Some chat ->
  str_in ("@" +:+ BOT_USERNAME environ lower) (lower text) = true ->
  (exists e : exn,
      telegram_answer w (sent s) (SendChatAction (Chat.id chat) "typing") = Raise e)
  \/ Message.from_user message = None ->
  let r := handle_group_mention environ lower w update s in
  let calls := sent s ++ [SendChatAction (Chat.id chat) "typing"] in
  let sorry := ReplyText (VStr "⚠️ Error processing request.") None None in
  chat_data r.1 = chat_data s
  /\ sent r.1 = calls ++ [sorry]
  /\ posts (sent r.1) = posts (sent s)
  /\ r.2 = telegram_answer w calls sorry.
Proof.
  intros Hmessage Htext Hnonempty Hchat Hmention Hfail r calls sorry.
  assert (String.eqb text "" = false) as Hne by now apply String.eqb_neq.
  assert (r = (mk_store (user_data s) (chat_data s) (calls ++ [sorry]),
               telegram_answer w calls sorry)) as Hr.
  { subst r calls sorry. unfold handle_group_mention, mention_guard, try_except.
    rewrite Hmessage, Htext, Hne, Hchat, Hmention. simpl.
    unfold bind, lift, ret, attr, chat_data_get, telegram. simpl.
    destruct (telegram_answer w (sent s) _) as [[]|e] eqn:Htyping; simpl.
    - destruct Hfail as [[e He]|Huser]; [discriminate|]. rewrite Huser. simpl.
      now destruct (telegram_answer w _ _).
    - now destruct (telegram_answer w _ _). }
  rewrite Hr. simpl. repeat split.
  subst calls sorry. unfold posts. rewrite !omap_app. simpl. now rewrite !app_nil_r.
Qed.

(** X16: a mention that goes through is answered in a thread: after the
    typing notification and the one request, the reply carries what the
    client returned and points at the triggering message; when that reply
    is accepted nothing else is sent and the handler returns, and when it
    fails the error reply follows and its outcome is the outcome of the
    handler. *)
Theorem mention_reply_trace
    (update : Update.t) (s : store)
    (message : Message.t) (text : string) (chat : Chat.t) (user : User.t) :
  Update.effective_message update = Some message ->
  Message.text message = Some text ->
  text <> EmptyString ->
  Update.effective_chat update = Some chat ->
  str_in ("@" +:+ BOT_USERNAME environ lower) (lower text) = true ->
  telegram_answer w (sent s) (SendChatAction (Chat.id chat) "typing") = Ok tt ->
  Message.from_user message = Some user ->
  let line := User.first_name user +:+ ": " +:+ text in
  let prompt := VStr (analysis_prompt (group_log s ++ [line])) in
  let s1 := mk_store (user_data s)
              (<["recent_msgs" := last_n 10 (group_log s ++ [line])]> (chat_data s))
              (sent s ++ [SendChatAction (Chat.id chat) "typing"]) in
  let r := handle_group_mention environ lower w update s in
  let sorry := ReplyText (VStr "⚠️ Error processing request.") None None in
  exists analysis : value,
    (generate_gemini_response environ w prompt None s1).2 = Ok analysis
    /\ let calls :=
         sent s ++ [SendChatAction (Chat.id chat) "typing";
                    Post (request_for environ prompt None)] in
       let reply := ReplyText analysis None (Some (Message.message_id message)) in
       match telegram_answer w calls reply with
       | Ok _ => sent r.1 = calls ++ [reply] /\ r.2 = Ok tt
       | Raise _ =>
           sent r.1 = calls ++ [reply; sorry]
           /\ r.2 = telegram_answer w (calls ++ [reply]) sorry
       end.
Proof.
  intros Hmessage Htext Hnonempty Hchat Hmention Htyping Huser line prompt s1 r sorry.
  assert (String.eqb text "" = false) as Hne by now apply String.eqb_neq.
  eexists. subst s1. rewrite generate_run. simpl. split; [reflexivity|].
  subst r sorry. unfold handle_group_mention, mention_guard, try_except.
  rewrite Hmessage, Htext, Hne, Hchat, Hmention. simpl.
  unfold bind, telegram at 1. simpl. rewrite Htyping. simpl. rewrite Huser. simpl.
  unfold analyze_conversation. rewrite generate_run. simpl.
  unfold message_line. fold line. fold (group_log s). fold prompt.
  unfold telegram. simpl. rewrite <- !app_assoc. simpl.
  destruct (telegram_answer w _ (ReplyText _ _ (Some _))) as [[]|e]; simpl.
  - split; reflexivity.
  - rewrite <- ?app_assoc. split; reflexivity.
Qed.

(** X17: lines older than the last ten never reach the model: the prompt
    of a buffer is the prompt of its last ten lines. *)
Theorem analysis_prompt_window (older recent : list string) :
  10 <= length recent ->
  analysis_prompt (older ++ recent) = analysis_prompt (last_n 10 recent)
  /\ analysis_prompt recent = analysis_prompt (last_n 10 recent).
Proof.
  intros Hlen. unfold analysis_prompt. rewrite !slice_last_10, last_n_idem.
  split; [|reflexivity].
  assert (last_n 10 (older ++ recent) = last_n 10 recent) as ->; [|reflexivity].
  unfold last_n. rewrite length_app, drop_app_ge by lia. f_equal. lia.
Qed.

End GroupMore.

(** ** Resets, the reach of the handlers, the welcome and the start-up *)

Section RestOfProgram.
Import Py Bot Spec Rest.

Variable environ : gmap string string.
Variable lower : string -> string.
Variable w : world.

Lemma str_in_append_r (sub a t : string) :
  str_in sub t = true -> str_in sub (a +:+ t) = true.
Proof.
  intros H. induction a as [|c a IH]; [exact H|].
  change (String c a +:+ t) with (String c (a +:+ t)).
  rewrite str_in_unfold, IH. apply orb_true_r.
Qed.

(** X18: /chat and /stop in a row: /stop after /chat leaves no history
    key, /chat after /stop is /chat, and each of them done twice is as
    good as once. *)
Theorem reset_compositions (first second : Update.t) (s : store) :
  user_data (stop_chat w second (chat_with_ai w first s).1).1
  = delete "chat_history" (user_data s)
  /\ user_data (chat_with_ai w second (stop_chat w first s).1).1
     = user_data (chat_with_ai w second s).1
  /\ user_data (stop_chat w second (stop_chat w first s).1).1
     = user_data (stop_chat w first s).1
  /\ user_data (chat_with_ai w second (chat_with_ai w first s).1).1
     = user_data (chat_with_ai w first s).1.
Proof.
  rewrite !stop_chat_user_data, !chat_with_ai_user_data, !stop_chat_user_data.
  repeat split.
  - apply delete_insert_eq.
  - apply insert_delete_eq.
  - apply map_eq. intros k. destruct (decide (k = "chat_history")) as [->|Hk].
    + now rewrite !lookup_delete_eq.
    + now rewrite !lookup_delete_ne by congruence.
  - apply insert_insert_eq.
Qed.

(** X19: every handler keeps to its own key: the private handlers leave
    the chat store and every other key of the user store alone, the group
    handlers leave the user store and every other key of the chat store
    alone. *)
Theorem handlers_keep_to_their_key (update : Update.t) (s : store) :
  chat_data (handle_ai_response environ w update s).1 = chat_data s
  /\ chat_data (chat_with_ai w update s).1 = chat_data s
  /\ chat_data (stop_chat w update s).1 = chat_data s
  /\ user_data (cache_messages update s).1 = user_data s
  /\ user_data (handle_group_mention environ lower w update s).1 = user_data s
  /\ (forall k : string, k <> "chat_history" ->
        user_data (handle_ai_response environ w update s).1 !! k = user_data s !! k
        /\ user_data (chat_with_ai w update s).1 !! k = user_data s !! k
        /\ user_data (stop_chat w update s).1 !! k = user_data s !! k)
  /\ (forall k : string, k <> "recent_msgs" ->
        chat_data (cache_messages update s).1 !! k = chat_data s !! k
        /\ chat_data (handle_group_mention environ lower w update s).1 !! k
           = chat_data s !! k).
Proof.
  split; [|split; [|split; [|split; [|split; [|split]]]]].
  - unfold handle_ai_response, try_except, bind, lift, ret, attr.
    destruct (Update.message update); simpl; [|reflexivity].
    destruct (Update.effective_chat update); simpl.
    + destruct (telegram_answer w (sent s) _) as [[]|e]; simpl.
      * rewrite generate_run. simpl.
        destruct (telegram_answer w _ (ReplyText _ _ _)) as [[]|e]; simpl;
          [reflexivity|].
        now destruct (telegram_answer w _ _).
      * now destruct (telegram_answer w _ _).
    + now destruct (telegram_answer w _ _).
  - unfold chat_with_ai, bind, lift, ret, attr, user_data_set, telegram.
    destruct (Update.message update); simpl; [|reflexivity].
    now destruct (telegram_answer w _ _).
  - unfold stop_chat, bind, lift, ret, attr, user_data_discard, telegram.
    destruct (user_data s !! "chat_history"), (Update.message update); simpl;
      try reflexivity; now destruct (telegram_answer w _ _).
  - unfold cache_messages, bind, lift, ret, attr, chat_data_setdefault, chat_data_set.
    destruct (Update.effective_message update) as [message|]; [|reflexivity].
    destruct (Message.text message) as [text|]; [|reflexivity].
    destruct (String.eqb text ""); [reflexivity|].
    destruct (chat_data s !! "recent_msgs"), (Message.from_user message); reflexivity.
  - unfold handle_group_mention, try_except.
    destruct (mention_guard environ lower update) as [[[message text] chat]|];
      [|reflexivity].
    unfold bind, lift, ret, attr, chat_data_get, chat_data_set, analyze_conversation.
    unfold telegram at 1. simpl.
    destruct (telegram_answer w (sent s) _) as [[]|e]; simpl.
    + destruct (Message.from_user message) as [user|]; simpl.
      * rewrite generate_run. simpl. unfold telegram. simpl.
        destruct (telegram_answer w _ (ReplyText _ _ (Some _))) as [[]|e]; simpl;
          [reflexivity|].
        now destruct (Update.effective_message update).
      * now destruct (Update.effective_message update).
    + now destruct (Update.effective_message update).
  - intros k Hk.
    rewrite handle_ai_response_step, chat_with_ai_user_data, stop_chat_user_data.
    split; [|split].
    + destruct (exchange_of environ w update s); [|reflexivity].
      now rewrite lookup_insert_ne by congruence.
    + now rewrite lookup_insert_ne by congruence.
    + now rewrite lookup_delete_ne by congruence.
  - intros k Hk. split.
    + unfold cache_messages, bind, lift, ret, attr, chat_data_setdefault, chat_data_set.
      destruct (Update.effective_message update) as [message|]; [|reflexivity].
      destruct (Message.text message) as [text|]; [|reflexivity].
      destruct (String.eqb text ""); [reflexivity|].
      destruct (chat_data s !! "recent_msgs"), (Message.from_user message); simpl;
        rewrite ?lookup_insert_ne by congruence; reflexivity.
    + rewrite handle_group_mention_chat_data.
      destruct (appended_line environ lower w (Mentioned update) s); [|reflexivity].
      now rewrite lookup_insert_ne by congruence.
Qed.

(** X20: the welcome command changes no store and calls no endpoint; with
    no user on the update it raises [AttributeError] before anything is
    sent, and with a user and a message it sends one reply, which names
    the user and the handle of the bot. *)
Theorem start_reply (update : user_update) (s : store) :
  let r := start environ lower w update s in
  user_data r.1 = user_data s
  /\ chat_data r.1 = chat_data s
  /\ posts (sent r.1) = posts (sent s)
  /\ (effective_user update = None -> r = (s, Raise AttributeError))
  /\ (forall (user : User.t) (message : Message.t),
        effective_user update = Some user ->
        Update.message (update_of update) = Some message ->
        exists welcome : string,
          sent r.1 = sent s ++ [ReplyText (VStr welcome) None None]
          /\ r.2 = telegram_answer w (sent s) (ReplyText (VStr welcome) None None)
          /\ str_in (User.first_name user) welcome = true
          /\ str_in ("@" +:+ BOT_USERNAME environ lower) welcome = true).
Proof.
  intros r. subst r. unfold start, bind, lift, ret, attr, telegram.
  destruct (effective_user update) as [user|]; simpl;
    [|repeat split; intros; discriminate].
  destruct (Update.message (update_of update)) as [message|]; simpl.
  - repeat split; try discriminate.
    + unfold posts. rewrite omap_app. simpl. now rewrite app_nil_r.
    + intros user' message' Huser _. injection Huser as <-.
      exists (welcome_message environ lower (User.first_name user)).
      repeat split.
      * unfold welcome_message. apply str_in_append.
      * unfold welcome_message. do 5 apply str_in_append_r.
        match goal with
        | |- str_in _ (_ +:+ _ +:+ ?t) = true =>
            change (str_in ("@" +:+ BOT_USERNAME environ lower)
                      ("In groups, mention me ("
                       +:+ "@" +:+ BOT_USERNAME environ lower +:+ t) = true)
        end.
        rewrite <- (append_assoc "@"). apply str_in_append.
  - repeat split; discriminate.
Qed.

(** X21: [main] polls only with a token and a key that are set and not
    empty, and then every request carries that key in its address; the
    token is looked at first, and a refusal names what is missing. *)
Theorem main_needs_credentials :
  match main environ with
  | Polling token registered =>
      environ !! "TELEGRAM_BOT_TOKEN" = Some token
      /\ token <> EmptyString
      /\ registered = handlers
      /\ exists key : string,
          environ !! "GEMINI_API_KEY" = Some key
          /\ key <> EmptyString
          /\ forall data : value,
              Request.url (build_request environ data)
              = GEMINI_API_URL +:+ "?key=" +:+ key
  | Refused logged =>
      (not_set (environ !! "TELEGRAM_BOT_TOKEN") = true
       /\ logged = "Missing TELEGRAM_BOT_TOKEN in .env")
      \/ (not_set (environ !! "TELEGRAM_BOT_TOKEN") = false
          /\ not_set (environ !! "GEMINI_API_KEY") = true
          /\ logged = "Missing GEMINI_API_KEY in .env")
  end.
Proof.
  unfold main, TELEGRAM_BOT_TOKEN, GEMINI_API_KEY, build_request, GEMINI_API_KEY.
  destruct (environ !! "TELEGRAM_BOT_TOKEN") as [token|] eqn:Htoken; simpl;
    [|now left].
  destruct (String.eqb_spec token "") as [->|Hne]; [now left|].
  destruct (environ !! "GEMINI_API_KEY") as [key|] eqn:Hkey; simpl.
  - destruct (String.eqb_spec key "") as [->|Hne'].
    + right. repeat split; try reflexivity; now apply String.eqb_neq.
    + repeat split; [exact Hne|]. exists key. repeat split. exact Hne'.
  - right. repeat split; try reflexivity; now apply String.eqb_neq.
Qed.

End RestOfProgram.

(** ** A private message that does not become an exchange *)

Section PrivateFailure.
Import Py Bot Spec Rest.

Variable environ : gmap string string.
Variable w : world.

(** X22: when the update has no chat, or the typing notification fails,
    the message is neither stored nor sent to the model; the user gets the
    fallback reply, and the conversation goes on if that reply goes
    through. *)
Theorem private_failure_before_exchange
    (update : Update.t) (s : store) (message : Message.t) :
  Update.message update = Some message ->
  Update.effective_chat update = None
  \/ (exists (chat : Chat.t) (e : exn),
         Update.effective_chat update = Some chat
         /\ telegram_answer w (sent s) (SendChatAction (Chat.id chat) "typing")
            = Raise e) ->
  let r := handle_ai_response environ w update s in
  let sorry := ReplyText (VStr "⚠️ An error occurred. Please try again.") None None in
  user_data r.1 = user_data s
  /\ exchange_of environ w update s = None
  /\ exists calls : list effect,
      sent r.1 = calls ++ [sorry]
      /\ posts calls = posts (sent s)
      /\ r.2 = match telegram_answer w calls sorry with
               | Ok _ => Ok CHATTING
               | Raise e => Raise e
               end.
Proof.
  intros Hmessage Hfail r sorry. subst r sorry.
  unfold handle_ai_response, exchange_of, try_except, bind, lift, ret, attr.
  rewrite Hmessage.
  destruct Hfail as [Hchat | (chat & e & Hchat & Htyping)]; rewrite Hchat; simpl.
  - unfold telegram. simpl. split; [|split; [reflexivity|]].
    + now destruct (telegram_answer w _ (ReplyText _ _ _)).
    + exists (sent s). split; [|split; [reflexivity|]];
        now destruct (telegram_answer w _ (ReplyText _ _ _)) as [[]|].
  - rewrite Htyping. simpl. unfold telegram. simpl.
    split; [|split; [reflexivity|]].
    + now destruct (telegram_answer w _ (ReplyText _ _ _)).
    + exists (sent s ++ [SendChatAction (Chat.id chat) "typing"]).
      split; [|split].
      * now destruct (telegram_answer w _ (ReplyText _ _ _)).
      * unfold posts. rewrite omap_app. simpl. now rewrite app_nil_r.
      * now destruct (telegram_answer w _ (ReplyText _ _ _)) as [[]|].
Qed.

End PrivateFailure.

(** ** The further properties on concrete runs *)

Lemma generate_falsy_candidates_witness :
  let response := MoreExamples.answer (Py.VDict [("candidates", Py.VNone)]) in
  Py.truthy Py.VNone = false
  /\ (Bot.generate_gemini_response Examples.environ
        (Examples.constant_world (Py.Ok response)) (Py.VStr "hi") None
        Examples.empty_store).2
     = Py.Ok (Py.VStr "Sorry, I couldn't generate a response.").
Proof.
  intros response. split; [reflexivity|].
  apply (generate_falsy_candidates Examples.environ
           (Examples.constant_world (Py.Ok response)) (Py.VStr "hi") None
           Examples.empty_store response [("candidates", Py.VNone)] Py.VNone);
    reflexivity.
Defined.

Lemma generate_candidate_without_text_witness :
  let blocked := Py.VDict [("finishReason", Py.VStr "SAFETY")] in
  let response := MoreExamples.answer (Py.VDict [("candidates", Py.VList [blocked])]) in
  Spec.candidate_text blocked = None
  /\ (Bot.generate_gemini_response Examples.environ
        (Examples.constant_world (Py.Ok response)) (Py.VStr "hi") None
        Examples.empty_store).2
     = Py.Ok (Py.VStr "⚠️ Sorry, I encountered an error. Please try again later.").
Proof.
  intros blocked response. split; [reflexivity|].
  apply (generate_candidate_without_text Examples.environ
           (Examples.constant_world (Py.Ok response)) (Py.VStr "hi") None
           Examples.empty_store response [("candidates", Py.VList [blocked])]
           blocked []);
    reflexivity.
Defined.

Lemma generate_non_object_body_witness :
  (Bot.generate_gemini_response Examples.environ
     (Examples.constant_world (Py.Ok (MoreExamples.answer Py.VNone)))
     (Py.VStr "hi") None Examples.empty_store).2
  = Py.Ok (Py.VStr "⚠️ Sorry, I encountered an error. Please try again later.")
  /\ (Bot.generate_gemini_response Examples.environ
        (Examples.constant_world
           (Py.Ok (MoreExamples.answer (Py.VList [Py.VStr "x"]))))
        (Py.VStr "hi") None Examples.empty_store).2
     = Py.Ok (Py.VStr "Sorry, I couldn't generate a response.").
Proof.
  split.
  - apply (proj1 (generate_non_object_body Examples.environ
                    (Examples.constant_world (Py.Ok (MoreExamples.answer Py.VNone)))
                    (Py.VStr "hi") None Examples.empty_store
                    (MoreExamples.answer Py.VNone) Py.VNone
                    eq_refl eq_refl eq_refl)).
    reflexivity.
  - apply (proj2 (generate_non_object_body Examples.environ
                    (Examples.constant_world
                       (Py.Ok (MoreExamples.answer (Py.VList [Py.VStr "x"]))))
                    (Py.VStr "hi") None Examples.empty_store
                    (MoreExamples.answer (Py.VList [Py.VStr "x"]))
                    (Py.VList [Py.VStr "x"])
                    eq_refl eq_refl eq_refl) [Py.VStr "x"]).
    + reflexivity.
    + simpl. intros [H|[]]. discriminate.
Defined.

Lemma exchange_trace_witness :
  let w := Examples.constant_world (Py.Ok (Examples.reply "Hi!")) in
  let update := Examples.private_update "hello" in
  let s := Examples.empty_store in
  let request := Spec.request_for Examples.environ (Py.VStr "hello") (Some []) in
  let s1 := Bot.mk_store (Bot.user_data s) (Bot.chat_data s)
              (Bot.sent s ++ [Bot.SendChatAction 7 "typing"]) in
  let r := Bot.handle_ai_response Examples.environ w update s in
  let sorry := Bot.ReplyText (Py.VStr "⚠️ An error occurred. Please try again.")
                 None None in
  (Bot.sent r.1
   = [Bot.SendChatAction 7 "typing"; Bot.Post request;
      Bot.ReplyText (Py.VStr "Hi!") None None]
   /\ r.2 = Py.Ok Bot.CHATTING)
  /\ exists response : Py.value,
      (Bot.generate_gemini_response Examples.environ w (Py.VStr "hello")
         (Some (Spec.history s)) s1).2 = Py.Ok response
      /\ Spec.history r.1
         = Spec.last_n 6 (Spec.history s
                          ++ [Bot.mk_turn "user" (Py.VStr "hello");
                              Bot.mk_turn "model" response])
      /\ last (Spec.history r.1) = Some (Bot.mk_turn "model" response)
      /\ let calls :=
           Bot.sent s
           ++ [Bot.SendChatAction 7 "typing";
               Bot.Post (Spec.request_for Examples.environ (Py.VStr "hello")
                           (Some (Spec.history s)))] in
         let reply := Bot.ReplyText response None None in
         match Bot.telegram_answer w calls reply with
         | Py.Ok _ => Bot.sent r.1 = calls ++ [reply] /\ r.2 = Py.Ok Bot.CHATTING
         | Py.Raise _ =>
             Bot.sent r.1 = calls ++ [reply; sorry]
             /\ r.2 = match Bot.telegram_answer w (calls ++ [reply]) sorry with
                      | Py.Ok _ => Py.Ok Bot.CHATTING
                      | Py.Raise e => Py.Raise e
                      end
         end.
Proof.
  intros w update s request s1 r sorry.
  split; [split; vm_compute; reflexivity|].
  apply (exchange_trace Examples.environ w update s
           (Bot.Message.mk (Some "hello") (Some (Bot.User.mk "Ann")) 1)
           (Bot.Chat.mk 7));
    reflexivity.
Defined.

Lemma history_invariant_witness :
  let w := Examples.counting_world in
  let updates := map Examples.private_update ["one"; "two"; "three"] in
  let s' := Bot.process_updates (Bot.handle_ai_response Examples.environ w)
              updates MoreExamples.one_exchange in
  Spec.paired (Spec.history MoreExamples.one_exchange) = true
  /\ length (Spec.history MoreExamples.one_exchange) = 2
  /\ Spec.paired (Spec.history s') = true
  /\ length (Spec.history s') <= 6
  /\ Spec.history s'
     = Spec.last_n 6 (Spec.history MoreExamples.one_exchange
                      ++ flat_map Spec.pair_turns
                           (Spec.exchanges Examples.environ w updates
                              MoreExamples.one_exchange)).
Proof.
  intros w updates s'.
  split; [vm_compute; reflexivity|]. split; [vm_compute; reflexivity|].
  apply (history_invariant Examples.environ w updates MoreExamples.one_exchange).
  - vm_compute. reflexivity.
  - vm_compute. lia.
Defined.

Lemma first_exchange_after_chat_witness :
  let w := Examples.constant_world (Py.Ok (Examples.reply "Hi!")) in
  let s1 := (Bot.chat_with_ai w (Examples.private_update "/chat")
               MoreExamples.one_exchange).1 in
  let s2 := (Bot.handle_ai_response Examples.environ w
               (Examples.private_update "again") s1).1 in
  exists (response : Py.value) (request : Bot.Request.t) (rest : list Bot.effect),
    Bot.sent s2
    = Bot.sent s1 ++ [Bot.SendChatAction 7 "typing"; Bot.Post request;
                      Bot.ReplyText response None None] ++ rest
    /\ Bot.Request.json request
       = Py.VDict [("contents",
                    Py.VList [Spec.provider_message
                                (Bot.mk_turn "user" (Py.VStr "again"))]);
                   ("generationConfig",
                    Py.VDict [("temperature", Py.VFloat 0.7%float);
                              ("maxOutputTokens", Py.VInt 500)])]
    /\ Spec.history s2
       = [Bot.mk_turn "user" (Py.VStr "again"); Bot.mk_turn "model" response].
Proof.
  intros w s1 s2.
  apply (first_exchange_after_chat Examples.environ w
           (Examples.private_update "/chat") (Examples.private_update "again")
           MoreExamples.one_exchange
           (Bot.Message.mk (Some "again") (Some (Bot.User.mk "Ann")) 1)
           (Bot.Chat.mk 7));
    reflexivity.
Defined.

Lemma group_log_mixed_window_witness :
  let w := Examples.constant_world (Py.Ok (Examples.reply "Summary: ...")) in
  let events :=
    [Rest.Cached (Examples.group_update "Ann" "hi");
     Rest.Mentioned (Examples.group_update "Bob" "@genz_mediator_bot help");
     Rest.Cached (Examples.group_update "Ann" "thanks")] in
  let s' := Rest.process_events Examples.environ Examples.lower w events
              Examples.empty_store in
  Spec.group_log s' = ["Ann: hi"; "Bob: @genz_mediator_bot help"; "Ann: thanks"]
  /\ Spec.group_log s'
     = Spec.last_n 10 (Spec.group_log Examples.empty_store
                       ++ Rest.appended_lines Examples.environ Examples.lower w events
                            Examples.empty_store)
  /\ length (Spec.group_log s') <= 10.
Proof.
  intros w events s'. split; [vm_compute; reflexivity|].
  apply (group_log_mixed_window Examples.environ Examples.lower w events
           Examples.empty_store).
  vm_compute. lia.
Defined.

Lemma cache_messages_quiet_witness :
  Bot.cache_messages MoreExamples.empty_update MoreExamples.one_exchange
  = (MoreExamples.one_exchange, Py.Ok tt).
Proof.
  apply (proj2 (proj2 (cache_messages_quiet MoreExamples.empty_update
                         MoreExamples.one_exchange))).
  intros message text H. discriminate.
Defined.

Lemma cache_messages_without_sender_witness :
  let r := Bot.cache_messages (MoreExamples.anonymous_update "hi")
             Examples.empty_store in
  r.2 = Py.Raise Py.AttributeError
  /\ Bot.chat_data r.1 !! "recent_msgs" = Some (Spec.group_log Examples.empty_store)
  /\ Spec.group_log r.1 = Spec.group_log Examples.empty_store.
Proof.
  intros r.
  apply (cache_messages_without_sender (MoreExamples.anonymous_update "hi")
           Examples.empty_store (Bot.Message.mk (Some "hi") None 1) "hi").
  - reflexivity.
  - reflexivity.
  - discriminate.
  - reflexivity.
Defined.

Lemma mention_not_addressed_witness :
  let w := Examples.constant_world (Py.Ok (Examples.reply "Summary: ...")) in
  Py.str_in ("@" +:+ Bot.BOT_USERNAME Examples.environ Examples.lower)
    (Examples.lower "hello @Someone_Else") = false
  /\ Bot.handle_group_mention Examples.environ Examples.lower w
       (Examples.group_update "Ann" "hello @Someone_Else") Examples.empty_store
     = (Examples.empty_store, Py.Ok tt).
Proof.
  intros w. split; [vm_compute; reflexivity|].
  apply (mention_not_addressed Examples.environ Examples.lower w
           (Examples.group_update "Ann" "hello @Someone_Else") Examples.empty_store
           (Bot.Message.mk (Some "hello @Someone_Else") (Some (Bot.User.mk "Ann")) 1)
           "hello @Someone_Else").
  - reflexivity.
  - reflexivity.
  - vm_compute. reflexivity.
Defined.

Lemma mention_failure_before_append_witness :
  let w := MoreExamples.typing_fails in
  let update := Examples.group_update "Bob" "@genz_mediator_bot help" in
  let r := Bot.handle_group_mention Examples.environ Examples.lower w update
             Examples.empty_store in
  let calls := Bot.sent Examples.empty_store ++ [Bot.SendChatAction (-100) "typing"] in
  let sorry := Bot.ReplyText (Py.VStr "⚠️ Error processing request.") None None in
  Bot.telegram_answer w [] (Bot.SendChatAction (-100) "typing")
  = Py.Raise Py.TelegramError
  /\ Bot.chat_data r.1 = Bot.chat_data Examples.empty_store
  /\ Bot.sent r.1 = calls ++ [sorry]
  /\ Rest.posts (Bot.sent r.1) = Rest.posts (Bot.sent Examples.empty_store)
  /\ r.2 = Bot.telegram_answer w calls sorry.
Proof.
  intros w update r calls sorry. split; [reflexivity|].
  apply (mention_failure_before_append Examples.environ Examples.lower w update
           Examples.empty_store
           (Bot.Message.mk (Some "@genz_mediator_bot help") (Some (Bot.User.mk "Bob")) 1)
           "@genz_mediator_bot help" (Bot.Chat.mk (-100))).
  - reflexivity.
  - reflexivity.
  - discriminate.
  - reflexivity.
  - vm_compute. reflexivity.
  - left. exists Py.TelegramError. reflexivity.
Defined.

Lemma mention_reply_trace_witness :
  let w := Examples.constant_world (Py.Ok (Examples.reply "Summary: ...")) in
  let text := "@genz_mediator_bot help" in
  let update := Examples.group_update "Bob" text in
  let s := Examples.empty_store in
  let line := "Bob" +:+ ": " +:+ text in
  let prompt := Py.VStr (Bot.analysis_prompt (Spec.group_log s ++ [line])) in
  let s1 := Bot.mk_store (Bot.user_data s)
              (<["recent_msgs" := Spec.last_n 10 (Spec.group_log s ++ [line])]>
                 (Bot.chat_data s))
              (Bot.sent s ++ [Bot.SendChatAction (-100) "typing"]) in
  let r := Bot.handle_group_mention Examples.environ Examples.lower w update s in
  let sorry := Bot.ReplyText (Py.VStr "⚠️ Error processing request.") None None in
  (Bot.sent r.1
   = [Bot.SendChatAction (-100) "typing";
      Bot.Post (Spec.request_for Examples.environ
                  (Py.VStr (Bot.analysis_prompt ["Bob: @genz_mediator_bot help"]))
                  None);
      Bot.ReplyText (Py.VStr "Summary: ...") None (Some 1%Z)]
   /\ r.2 = Py.Ok tt)
  /\ exists analysis : Py.value,
      (Bot.generate_gemini_response Examples.environ w prompt None s1).2
      = Py.Ok analysis
      /\ let calls :=
           Bot.sent s ++ [Bot.SendChatAction (-100) "typing";
                          Bot.Post (Spec.request_for Examples.environ prompt None)] in
         let reply := Bot.ReplyText analysis None (Some 1%Z) in
         match Bot.telegram_answer w calls reply with
         | Py.Ok _ => Bot.sent r.1 = calls ++ [reply] /\ r.2 = Py.Ok tt
         | Py.Raise _ =>
             Bot.sent r.1 = calls ++ [reply; sorry]
             /\ r.2 = Bot.telegram_answer w (calls ++ [reply]) sorry
         end.
Proof.
  intros w text update s line prompt s1 r sorry.
  split; [split; vm_compute; reflexivity|].
  apply (mention_reply_trace Examples.environ Examples.lower w update s
           (Bot.Message.mk (Some text) (Some (Bot.User.mk "Bob")) 1)
           text (Bot.Chat.mk (-100)) (Bot.User.mk "Bob")).
  - reflexivity.
  - reflexivity.
  - discriminate.
  - reflexivity.
  - vm_compute. reflexivity.
  - reflexivity.
  - reflexivity.
Defined.

Lemma analysis_prompt_window_witness :
  10 <= length MoreExamples.ten_lines
  /\ Bot.analysis_prompt (["old1"; "old2"] ++ MoreExamples.ten_lines)
     = Bot.analysis_prompt (Spec.last_n 10 MoreExamples.ten_lines)
  /\ Bot.analysis_prompt MoreExamples.ten_lines
     = Bot.analysis_prompt (Spec.last_n 10 MoreExamples.ten_lines).
Proof.
  split; [simpl; lia|].
  apply (analysis_prompt_window ["old1"; "old2"] MoreExamples.ten_lines).
  simpl. lia.
Defined.

Lemma handlers_keep_to_their_key_witness :
  let w := Examples.constant_world (Py.Ok (Examples.reply "Hi!")) in
  let update := Examples.private_update "hello" in
  let s := Bot.mk_store {["language" := []]} ∅ [] in
  "language" <> "chat_history"
  /\ Bot.user_data (Bot.handle_ai_response Examples.environ w update s).1 !! "language"
     = Bot.user_data s !! "language"
  /\ Bot.user_data (Bot.chat_with_ai w update s).1 !! "language"
     = Bot.user_data s !! "language"
  /\ Bot.user_data (Bot.stop_chat w update s).1 !! "language"
     = Bot.user_data s !! "language".
Proof.
  intros w update s. split; [discriminate|].
  apply (handlers_keep_to_their_key Examples.environ Examples.lower w update s).
  discriminate.
Defined.

Lemma start_reply_witness :
  let w := Examples.constant_world (Py.Raise Py.HTTPError) in
  let update := Rest.mk_user_update (Examples.private_update "/start")
                  (Some (Bot.User.mk "Ann")) in
  let r := Rest.start Examples.environ Examples.lower w update Examples.empty_store in
  exists welcome : string,
    Bot.sent r.1 = [] ++ [Bot.ReplyText (Py.VStr welcome) None None]
    /\ r.2 = Bot.telegram_answer w [] (Bot.ReplyText (Py.VStr welcome) None None)
    /\ Py.str_in "Ann" welcome = true
    /\ Py.str_in ("@" +:+ Bot.BOT_USERNAME Examples.environ Examples.lower) welcome
       = true.
Proof.
  intros w update r.
  apply (start_reply Examples.environ Examples.lower w update Examples.empty_store)
    with (user := Bot.User.mk "Ann")
         (message := Bot.Message.mk (Some "/start") (Some (Bot.User.mk "Ann")) 1);
    reflexivity.
Defined.

Lemma private_failure_before_exchange_witness :
  let w := MoreExamples.typing_fails in
  let update := Examples.private_update "hello" in
  let r := Bot.handle_ai_response Examples.environ w update MoreExamples.one_exchange in
  let sorry := Bot.ReplyText (Py.VStr "⚠️ An error occurred. Please try again.")
                 None None in
  Bot.telegram_answer w [] (Bot.SendChatAction 7 "typing") = Py.Raise Py.TelegramError
  /\ Bot.user_data r.1 = Bot.user_data MoreExamples.one_exchange
  /\ Spec.exchange_of Examples.environ w update MoreExamples.one_exchange = None
  /\ exists calls : list Bot.effect,
      Bot.sent r.1 = calls ++ [sorry]
      /\ Rest.posts calls = Rest.posts (Bot.sent MoreExamples.one_exchange)
      /\ r.2 = match Bot.telegram_answer w calls sorry with
               | Py.Ok _ => Py.Ok Bot.CHATTING
               | Py.Raise e => Py.Raise e
               end.
Proof.
  intros w update r sorry. split; [reflexivity|].
  apply (private_failure_before_exchange Examples.environ w update
           MoreExamples.one_exchange
           (Bot.Message.mk (Some "hello") (Some (Bot.User.mk "Ann")) 1)).
  - reflexivity.
  - right. exists (Bot.Chat.mk 7), Py.TelegramError. split; reflexivity.
Defined.

(** The start-up on three environments. *)
Example main_run :
  Rest.main ∅ = Rest.Refused "Missing TELEGRAM_BOT_TOKEN in .env"
  /\ Rest.main {["TELEGRAM_BOT_TOKEN" := "t0k"; "GEMINI_API_KEY" := ""]}
     = Rest.Refused "Missing GEMINI_API_KEY in .env"
  /\ Rest.main {["TELEGRAM_BOT_TOKEN" := "t0k"; "GEMINI_API_KEY" := "k3y"]}
     = Rest.Polling "t0k" Rest.handlers.
Proof. repeat split; vm_compute; reflexivity. Qed.
